(** * Recruiting visualizer backend: loader, ingest, review API and search

    A shallow embedding of [backend/services.py], [backend/models.py],
    [backend/routes.py] and the start-up of [backend/app.py], and the
    properties of the specification proved (or refuted) on it, followed by
    further properties of the code.

    Conventions of the embedding.
    - Python [str] values are [string]s over the ASCII alphabet: [\w] is
      [A-Za-z0-9_], case folding is [A-Z] to [a-z], and whitespace is what
      [str.isspace] accepts below code 128.
    - A Python exception is a value of [exn]; a computation that may raise
      has an [outcome].  The third outcome, [OutOfModel], stands for runs
      in which Python carries on with a value of another type than the one
      the model declares (a number where [Candidate.title] is a [str]); the
      model makes no statement about such runs.
    - What lies outside the repository (the file system, [json.load], the
      PyMuPDF library, the clock) is an input: the state of a path, the
      outcome of reading a document, the pages a PDF yields, the successive
      readings of the clock. *)

From stdpp Require Import base option list gmap strings sorting pretty.
From Stdlib Require Import ZArith Ascii String Lia.

Open Scope string_scope.
Open Scope list_scope.
Open Scope Z_scope.

(** ** Python strings *)

Module PyStr.

Definition code (c : ascii) : N := N_of_ascii c.

(** [str.isspace] on the ASCII range: TAB, LF, VT, FF, CR, the four
    separators FS, GS, RS, US, and the space. *)
Definition is_space (c : ascii) : bool :=
  let n := code c in
  ((9 <=? n) && (n <=? 13) || (28 <=? n) && (n <=? 32))%N.

Definition is_upper (c : ascii) : bool :=
  let n := code c in ((65 <=? n) && (n <=? 90))%N.

Definition is_lower (c : ascii) : bool :=
  let n := code c in ((97 <=? n) && (n <=? 122))%N.

Definition is_digit (c : ascii) : bool :=
  let n := code c in ((48 <=? n) && (n <=? 57))%N.

Definition is_alnum (c : ascii) : bool :=
  is_upper c || is_lower c || is_digit c.


Definition is_empty (s : string) : bool :=
  match s with EmptyString => true | String _ _ => false end.

(** [s.lstrip()], [s.rstrip()] and [s.strip()] *)
Fixpoint lstrip (s : string) : string :=
  match s with
  | EmptyString => EmptyString
  | String c s' => if is_space c then lstrip s' else s
  end.

Fixpoint rstrip (s : string) : string :=
  match s with
  | EmptyString => EmptyString
  | String c s' =>
      match rstrip s' with
      | EmptyString => if is_space c then EmptyString else String c EmptyString
      | r => String c r
      end
  end.

Definition strip (s : string) : string := lstrip (rstrip s).

(** [s.split(sep)] for a one-character separator: never the empty list. *)
Fixpoint split (sep : ascii) (s : string) : list string :=
  match s with
  | EmptyString => [EmptyString]
  | String c s' =>
      if decide (c = sep) then EmptyString :: split sep s'
      else match split sep s' with
           | [] => [String c EmptyString]
           | cur :: rest => String c cur :: rest
           end
  end.

(** [sep.join(parts)] *)
Fixpoint join (sep : string) (parts : list string) : string :=
  match parts with
  | [] => EmptyString
  | [p] => p
  | p :: rest => p +:+ sep +:+ join sep rest
  end.

(** [hay.startswith(needle)] *)
Fixpoint startswith (needle hay : string) : bool :=
  match needle, hay with
  | EmptyString, _ => true
  | String _ _, EmptyString => false
  | String a n', String b h' => bool_decide (a = b) && startswith n' h'
  end.

(** [needle in hay] *)
Fixpoint contains (needle hay : string) : bool :=
  startswith needle hay ||
  match hay with
  | EmptyString => false
  | String _ h' => contains needle h'
  end.

(** [s.replace(old, new)] for one-character [old] and [new] *)
Fixpoint replace (old new : ascii) (s : string) : string :=
  match s with
  | EmptyString => EmptyString
  | String c s' => String (if decide (c = old) then new else c) (replace old new s')
  end.

(** the characters of [s], as Python iterates over a [str] *)
Fixpoint chars (s : string) : list string :=
  match s with
  | EmptyString => []
  | String c s' => String c EmptyString :: chars s'
  end.

Definition last_char (s : string) : option ascii :=
  last (list_ascii_of_string s).

Definition first_char (s : string) : option ascii :=
  head (list_ascii_of_string s).

End PyStr.

(** ** Exceptions and outcomes *)

Inductive exn : Type :=
  | FileNotFoundError
  | JSONDecodeError
  | UnicodeDecodeError
  | PermissionError
  | IsADirectoryError
  | NotADirectoryError
  | AttributeError
  | TypeError
  | IntegrityError
  | FitzError
  | ReError
  | HTTPException (status_code : Z) (detail : string).

Inductive outcome (A : Type) : Type :=
  | Returns (a : A)
  | Raises (e : exn)
  | OutOfModel.

Arguments Returns {A} a.
Arguments Raises {A} e.
Arguments OutOfModel {A}.

#[global] Instance outcome_ret : MRet outcome := fun A a => Returns a.

#[global] Instance outcome_bind : MBind outcome := fun A B k m =>
  match m with
  | Returns a => k a
  | Raises e => Raises e
  | OutOfModel => OutOfModel
  end.

(** ** JSON documents as Python values

    [json.load] turns a document into nested [dict], [list], [str], number,
    [bool] and [None] values.  A number keeps its literal. *)

#[warnings="-register-all"]
Inductive json : Type :=
  | JNull
  | JBool (b : bool)
  | JNum (literal : string)
  | JStr (s : string)
  | JArr (items : list json)
  | JObj (members : list (string * json)).

(** [d[k]] of a [dict] whose members are listed in order *)
Fixpoint members_lookup (members : list (string * json)) (k : string) : option json :=
  match members with
  | [] => None
  | (k', v) :: rest => if decide (k' = k) then Some v else members_lookup rest k
  end.

(** [d.get(k, default)]: an [AttributeError] on anything but a [dict] *)
Definition py_get (d : json) (k : string) (dflt : json) : outcome json :=
  match d with
  | JObj members => Returns (default dflt (members_lookup members k))
  | _ => Raises AttributeError
  end.

(** [for x in v]: a [list] yields its items, a [dict] its keys, a [str]
    its characters; anything else is not iterable. *)
Definition py_iter (v : json) : outcome (list json) :=
  match v with
  | JArr items => Returns items
  | JObj members => Returns (map (fun kv => JStr (fst kv)) members)
  | JStr s => Returns (map JStr (PyStr.chars s))
  | _ => Raises TypeError
  end.

Definition is_the_str (needle : string) (v : json) : bool :=
  match v with
  | JStr s => bool_decide (s = needle)
  | _ => false
  end.

(** [needle in v] for a [str] needle: substring of a [str], item of a
    [list], key of a [dict]; a [TypeError] on the other values. *)
Definition py_in (needle : string) (v : json) : outcome bool :=
  match v with
  | JStr s => Returns (PyStr.contains needle s)
  | JArr items => Returns (existsb (is_the_str needle) items)
  | JObj members => Returns (existsb (fun kv => bool_decide (fst kv = needle)) members)
  | _ => Raises TypeError
  end.

(** A value used where the code expects a [str]. *)
Definition as_str (v : json) : outcome string :=
  match v with
  | JStr s => Returns s
  | _ => OutOfModel
  end.

(** A value used where the code expects an [Optional[str]]. *)
Definition as_optional_str (v : json) : outcome (option string) :=
  match v with
  | JNull => Returns None
  | JStr s => Returns (Some s)
  | _ => OutOfModel
  end.

(** The text [json.dumps(v)] yields, kept as the value it encodes. *)
Inductive json_text : Type :=
  | Dumps (v : json).

(** ** backend/models.py *)

Definition datetime : Type := Z.

Record Candidate : Type := mkCandidate {
  id : option Z;
  folder_name : string;
  full_name : string;
  title : option string;
  primary_email : option string;
  linkedin_url : option string;
  display_urls : option json_text;
  experience : option json_text;
  education : option json_text;
  experience_text : option string;
  education_text : option string;
  cv_text : option string;
  starred : bool;
  notes : option string;
  viewed : bool;
  viewed_at : option datetime;
  created_at : datetime;
  updated_at : datetime
}.

Record CandidateUpdate : Type := mkCandidateUpdate {
  upd_starred : option bool;
  upd_notes : option string;
  upd_viewed : option bool
}.

(** ** The world the backend runs in *)

(** What [open] followed by [json.load] does on a path. *)
Inductive document : Type :=
  | Parsed (v : json)
  | Unreadable (e : exn).

(** What PyMuPDF does on a path: [fitz.open] fails, or the document opens
    and each page yields its text or fails in [get_text]. *)
Inductive pdf : Type :=
  | OpenFails
  | Pages (texts : list (option string)).

(** An applicant folder: its two JSON documents and its [cv.pdf]. *)
Record folder : Type := mkFolder {
  basic_info_json : document;
  personal_info_json : document;
  cv_pdf : option pdf
}.

Inductive dir_entry : Type :=
  | RegularFile
  | Directory (f : folder).

Inductive path_state : Type :=
  | Absent
  | NotADirectory
  | ApplicantsDir (entries : gmap string dir_entry).

Inductive log_line : Type :=
  | LogPathSet (path : string)
  | LogExtractFailed (folder_name : string)
  | LogPathMissing (path : string)
  | LogLoaded (loaded_count skipped_count : nat).

Record World : Type := mkWorld {
  wall_clock : nat -> datetime;
  ticks : nat;
  stdout : list log_line;
  HAS_PYMUPDF : bool;
  _applicants_path : string;
  disk : string -> path_state;
  rows : list Candidate;
  flushed : list Candidate;
  pending : list Candidate
}.

Definition M (A : Type) : Type := World -> outcome A * World.

#[global] Instance M_ret : MRet M := fun A a w => (Returns a, w).

#[global] Instance M_bind : MBind M := fun A B k m w =>
  match m w with
  | (Returns a, w') => k a w'
  | (Raises e, w') => (Raises e, w')
  | (OutOfModel, w') => (OutOfModel, w')
  end.

Definition lift {A} (o : outcome A) : M A := fun w => (o, w).

Definition raise {A} (e : exn) : M A := lift (Raises e).

Definition get_world : M World := fun w => (Returns w, w).

Definition gets {A} (f : World -> A) : M A := fun w => (Returns (f w), w).

Definition modify (f : World -> World) : M unit := fun w => (Returns tt, f w).

Definition with_ticks (n : nat) (w : World) : World :=
  mkWorld (wall_clock w) n (stdout w) (HAS_PYMUPDF w) (_applicants_path w)
          (disk w) (rows w) (flushed w) (pending w).

Definition with_stdout (o : list log_line) (w : World) : World :=
  mkWorld (wall_clock w) (ticks w) o (HAS_PYMUPDF w) (_applicants_path w)
          (disk w) (rows w) (flushed w) (pending w).

Definition with_applicants_path (p : string) (w : World) : World :=
  mkWorld (wall_clock w) (ticks w) (stdout w) (HAS_PYMUPDF w) p
          (disk w) (rows w) (flushed w) (pending w).

Definition with_rows (r : list Candidate) (w : World) : World :=
  mkWorld (wall_clock w) (ticks w) (stdout w) (HAS_PYMUPDF w) (_applicants_path w)
          (disk w) r (flushed w) (pending w).

Definition with_pending (p : list Candidate) (w : World) : World :=
  mkWorld (wall_clock w) (ticks w) (stdout w) (HAS_PYMUPDF w) (_applicants_path w)
          (disk w) (rows w) (flushed w) p.

Definition with_flushed (f : list Candidate) (w : World) : World :=
  mkWorld (wall_clock w) (ticks w) (stdout w) (HAS_PYMUPDF w) (_applicants_path w)
          (disk w) (rows w) f (pending w).

(** [utc_now()]: the next reading of the clock *)
Definition utc_now : M datetime :=
  now ← gets (fun w => wall_clock w (ticks w));
  _ ← modify (fun w => with_ticks (S (ticks w)) w);
  mret now.

(** [print(...)] *)
Definition print (l : log_line) : M unit :=
  modify (fun w => with_stdout (stdout w ++ [l]) w).

(** [try: body except Exception: handler] *)
Definition try_except {A} (body : M A) (handler : exn -> M A) : M A := fun w =>
  match body w with
  | (Raises e, w') => handler e w'
  | r => r
  end.

(** ** The store: one table behind an ORM session

    [rows] is the committed table, in rowid order.  Inside a transaction
    the session holds the rows it has inserted but not committed
    ([flushed]) and the new objects it has not yet sent ([pending]); a
    query flushes the pending objects first and sees all three. *)

(** SQLite gives a new row the largest rowid plus one. *)
Definition next_id (table : list Candidate) : Z :=
  1 + foldr (fun r acc => Z.max (default 0 (id r)) acc) 0 table.

Definition with_id (i : Z) (c : Candidate) : Candidate :=
  mkCandidate (Some i) (folder_name c) (full_name c) (title c) (primary_email c)
    (linkedin_url c) (display_urls c) (experience c) (education c)
    (experience_text c) (education_text c) (cv_text c) (starred c) (notes c)
    (viewed c) (viewed_at c) (created_at c) (updated_at c).

Definition has_folder_name (name : string) (c : Candidate) : bool :=
  bool_decide (folder_name c = name).

Definition has_id (i : Z) (c : Candidate) : bool :=
  bool_decide (id c = Some i).

(** [INSERT]: [folder_name] is declared unique. *)
Definition insert_row (committed : list Candidate) (c : Candidate)
    (inserted : list Candidate) : outcome (list Candidate) :=
  if existsb (has_folder_name (folder_name c)) (committed ++ inserted)
  then Raises IntegrityError
  else Returns (inserted ++ [with_id (next_id (committed ++ inserted)) c]).

Fixpoint insert_rows (committed : list Candidate) (new : list Candidate)
    (inserted : list Candidate) : outcome (list Candidate) :=
  match new with
  | [] => Returns inserted
  | c :: rest =>
      inserted' ← insert_row committed c inserted;
      insert_rows committed rest inserted'
  end.

Definition session_flush : M unit := fun w =>
  match insert_rows (rows w) (pending w) (flushed w) with
  | Returns f => (Returns tt, with_pending [] (with_flushed f w))
  | Raises e => (Raises e, w)
  | OutOfModel => (OutOfModel, w)
  end.

(** [session.add(c)] for a new object *)
Definition session_add (c : Candidate) : M unit :=
  modify (fun w => with_pending (pending w ++ [c]) w).

(** [session.commit()] *)
Definition session_commit : M unit :=
  _ ← session_flush;
  modify (fun w => with_flushed [] (with_rows (rows w ++ flushed w) w)).

(** [session.exec(select(Candidate).where(Candidate.folder_name == name)).first()] *)
Definition select_first_by_folder_name (name : string) : M (option Candidate) :=
  _ ← session_flush;
  gets (fun w => find (has_folder_name name) (rows w ++ flushed w)).

(** [session.get(Candidate, candidate_id)] *)
Definition session_get (candidate_id : Z) : M (option Candidate) :=
  gets (fun w => find (has_id candidate_id) (rows w)).

(** [session.add(c); session.commit(); session.refresh(c)] for an object
    loaded from the table: its row is rewritten and read back. *)
Definition session_save (c : Candidate) : M Candidate :=
  _ ← modify (fun w =>
        with_rows (map (fun r => if bool_decide (id r = id c) then c else r) (rows w)) w);
  mret c.

(** ** backend/services.py *)

Definition LF : ascii := "010"%char.

Definition get_applicants_path : M string := gets _applicants_path.

Definition set_applicants_path (path : string) : M unit :=
  _ ← modify (with_applicants_path path);
  print (LogPathSet path).

Definition load_json (d : document) : outcome json :=
  match d with
  | Parsed v => Returns v
  | Unreadable FileNotFoundError => Returns (JObj [])
  | Unreadable JSONDecodeError => Returns (JObj [])
  | Unreadable e => Raises e
  end.

Fixpoint filter_urls_from (items : list json) : outcome (list json) :=
  match items with
  | [] => Returns []
  | u :: rest =>
      excluded ← py_in "arxiv.org" u;
      kept ← filter_urls_from rest;
      Returns (if excluded : bool then kept else u :: kept)
  end.

Definition filter_urls (urls : json) : outcome (list json) :=
  items ← py_iter urls;
  filter_urls_from items.

Fixpoint experience_parts (items : list json) : outcome (list string) :=
  match items with
  | [] => Returns []
  | exp :: rest =>
      title ← py_get exp "title" (JStr "");
      work ← py_get exp "work" (JStr "");
      title ← as_str title;
      work ← as_str work;
      parts ← experience_parts rest;
      Returns (if negb (PyStr.is_empty title) || negb (PyStr.is_empty work)
               then PyStr.strip (title +:+ " " +:+ work) :: parts
               else parts)
  end.

Definition flatten_experience (experience : json) : outcome string :=
  items ← py_iter experience;
  parts ← experience_parts items;
  Returns (PyStr.join ", " parts).

Fixpoint education_parts (items : list json) : outcome (list string) :=
  match items with
  | [] => Returns []
  | edu :: rest =>
      degree ← py_get edu "degree" (JStr "");
      major ← py_get edu "major" (JStr "");
      school ← py_get edu "school" (JStr "");
      degree ← as_str degree;
      major ← as_str major;
      school ← as_str school;
      parts ← education_parts rest;
      Returns (if negb (PyStr.is_empty degree) || negb (PyStr.is_empty major)
                  || negb (PyStr.is_empty school)
               then PyStr.strip (degree +:+ " " +:+ major +:+ " " +:+ school) :: parts
               else parts)
  end.

Definition flatten_education (education : json) : outcome string :=
  items ← py_iter education;
  parts ← education_parts items;
  Returns (PyStr.join ", " parts).

(** The loop over the pages: [get_text] of each page, the empty texts
    left out. *)
Fixpoint page_texts (pages : list (option string)) : outcome (list string) :=
  match pages with
  | [] => Returns []
  | None :: _ => Raises FitzError
  | Some text :: rest =>
      text_parts ← page_texts rest;
      Returns (if PyStr.is_empty text then text_parts else text :: text_parts)
  end.

Definition fitz_open (doc : pdf) : outcome (list (option string)) :=
  match doc with
  | OpenFails => Raises FitzError
  | Pages texts => Returns texts
  end.

Definition clean_text (text_parts : list string) : string :=
  let full_text := PyStr.join (String LF (String LF "")) text_parts in
  let lines := map PyStr.strip (PyStr.split LF full_text) in
  PyStr.join (String LF "") (List.filter (fun line => negb (PyStr.is_empty line)) lines).

(** [cv] is the state of [pdf_path]: [None] when the path does not exist. *)
Definition extract_pdf_text (pdf_path : string) (cv : option pdf) : M (option string) :=
  w ← get_world;
  if negb (HAS_PYMUPDF w) then mret None
  else match cv with
       | None => mret None
       | Some file =>
           try_except
             (doc ← lift (fitz_open file);
              text_parts ← lift (page_texts doc);
              let cleaned := clean_text text_parts in
              mret (if PyStr.is_empty cleaned then None else Some cleaned))
             (fun e => _ ← print (LogExtractFailed pdf_path); mret None)
       end.

Definition load_candidate_from_folder (name : string) (f : folder) : M Candidate :=
  let cv_path := name +:+ "/cv.pdf" in
  basic_info ← lift (load_json (basic_info_json f));
  personal_info ← lift (load_json (personal_info_json f));
  data ← lift (py_get basic_info "data" (JObj []));
  personal_data ← lift (py_get personal_info "data" (JObj []));
  full_name ← lift (py_get data "fullName" (JStr (PyStr.replace "-" " " name)));
  title ← lift (py_get data "title" JNull);
  primary_email ← lift (py_get personal_data "primaryEmail" JNull);
  linkedin_url ← lift (py_get personal_data "linkedinUrl" JNull);
  display_urls ← lift (py_get personal_data "displayUrls" (JArr []));
  filtered_urls ← lift (filter_urls display_urls);
  experience ← lift (py_get data "experience" (JArr []));
  education ← lift (py_get data "education" (JArr []));
  experience_text ← lift (flatten_experience experience);
  education_text ← lift (flatten_education education);
  cv_text ← extract_pdf_text cv_path (cv_pdf f);
  full_name ← lift (as_str full_name);
  title ← lift (as_optional_str title);
  primary_email ← lift (as_optional_str primary_email);
  linkedin_url ← lift (as_optional_str linkedin_url);
  created_at ← utc_now;
  updated_at ← utc_now;
  mret (mkCandidate None name full_name title primary_email linkedin_url
          (Some (Dumps (JArr filtered_urls)))
          (Some (Dumps experience))
          (Some (Dumps education))
          (Some experience_text) (Some education_text) cv_text
          false None false None created_at updated_at).

Definition name_le (a b : string * dir_entry) : Prop := String.le (fst a) (fst b).

#[global] Instance name_le_dec : RelDecision name_le.
Proof. intros a b. unfold name_le. apply _. Defined.

(** [sorted(path.iterdir())]: the entries by name *)
Definition sorted_iterdir (entries : gmap string dir_entry) : list (string * dir_entry) :=
  merge_sort name_le (map_to_list entries).

(** The loop of [load_candidates_from_disk] with its two counters. *)
Fixpoint scan_folders (entries : list (string * dir_entry))
    (loaded_count skipped_count : nat) : M (nat * nat) :=
  match entries with
  | [] => mret (loaded_count, skipped_count)
  | (name, RegularFile) :: rest => scan_folders rest loaded_count skipped_count
  | (name, Directory f) :: rest =>
      existing ← select_first_by_folder_name name;
      match existing with
      | Some _ => scan_folders rest loaded_count (S skipped_count)
      | None =>
          candidate ← load_candidate_from_folder name f;
          _ ← session_add candidate;
          scan_folders rest (S loaded_count) skipped_count
      end
  end.

Definition load_candidates_from_disk (applicants_path : option string) : M unit :=
  path ← match applicants_path with
         | Some p => mret p
         | None => get_applicants_path
         end;
  state ← gets (fun w => disk w path);
  match state with
  | Absent => print (LogPathMissing path)
  | NotADirectory => raise NotADirectoryError
  | ApplicantsDir entries =>
      counts ← scan_folders (sorted_iterdir entries) 0 0;
      _ ← session_commit;
      print (LogLoaded (fst counts) (snd counts))
  end.

(** ** backend/routes.py *)

Record SearchResult : Type := mkSearchResult {
  res_id : option Z;
  res_folder_name : string;
  res_full_name : string;
  res_title : option string;
  res_education_text : option string;
  res_experience_text : option string;
  res_starred : bool;
  res_viewed : bool
}.

Inductive payload : Type :=
  | CandidateData (c : Candidate)
  | SearchData (candidates : list SearchResult) (query : string).

Record ApiResponse : Type := mkApiResponse {
  status : bool;
  message : string;
  data : option payload
}.

Definition set_starred (b : bool) (c : Candidate) : Candidate :=
  mkCandidate (id c) (folder_name c) (full_name c) (title c) (primary_email c)
    (linkedin_url c) (display_urls c) (experience c) (education c)
    (experience_text c) (education_text c) (cv_text c) b (notes c)
    (viewed c) (viewed_at c) (created_at c) (updated_at c).

Definition set_notes (n : option string) (c : Candidate) : Candidate :=
  mkCandidate (id c) (folder_name c) (full_name c) (title c) (primary_email c)
    (linkedin_url c) (display_urls c) (experience c) (education c)
    (experience_text c) (education_text c) (cv_text c) (starred c) n
    (viewed c) (viewed_at c) (created_at c) (updated_at c).

Definition set_viewed (b : bool) (c : Candidate) : Candidate :=
  mkCandidate (id c) (folder_name c) (full_name c) (title c) (primary_email c)
    (linkedin_url c) (display_urls c) (experience c) (education c)
    (experience_text c) (education_text c) (cv_text c) (starred c) (notes c)
    b (viewed_at c) (created_at c) (updated_at c).

Definition set_viewed_at (t : option datetime) (c : Candidate) : Candidate :=
  mkCandidate (id c) (folder_name c) (full_name c) (title c) (primary_email c)
    (linkedin_url c) (display_urls c) (experience c) (education c)
    (experience_text c) (education_text c) (cv_text c) (starred c) (notes c)
    (viewed c) t (created_at c) (updated_at c).

Definition set_updated_at (t : datetime) (c : Candidate) : Candidate :=
  mkCandidate (id c) (folder_name c) (full_name c) (title c) (primary_email c)
    (linkedin_url c) (display_urls c) (experience c) (education c)
    (experience_text c) (education_text c) (cv_text c) (starred c) (notes c)
    (viewed c) (viewed_at c) (created_at c) t.

Definition not_found {A} : M A := raise (HTTPException 404 "Candidate not found").

Definition get_candidate (candidate_id : Z) : M ApiResponse :=
  found ← session_get candidate_id;
  match found with
  | None => not_found
  | Some candidate =>
      candidate ←
        (if negb (viewed candidate) then
           let candidate := set_viewed true candidate in
           now ← utc_now;
           let candidate := set_viewed_at (Some now) candidate in
           now ← utc_now;
           let candidate := set_updated_at now candidate in
           session_save candidate
         else mret candidate);
      mret (mkApiResponse true "Candidate retrieved" (Some (CandidateData candidate)))
  end.

Definition update_candidate (candidate_id : Z) (update : CandidateUpdate) : M ApiResponse :=
  found ← session_get candidate_id;
  match found with
  | None => not_found
  | Some candidate =>
      let candidate :=
        match upd_starred update with
        | Some b => set_starred b candidate
        | None => candidate
        end in
      let candidate :=
        match upd_notes update with
        | Some n => set_notes (Some n) candidate
        | None => candidate
        end in
      candidate ←
        match upd_viewed update with
        | Some v =>
            let candidate := set_viewed v candidate in
            if v && negb (bool_decide (is_Some (viewed_at candidate))) then
              now ← utc_now;
              mret (set_viewed_at (Some now) candidate)
            else mret candidate
        | None => mret candidate
        end;
      now ← utc_now;
      let candidate := set_updated_at now candidate in
      candidate ← session_save candidate;
      mret (mkApiResponse true "Candidate updated" (Some (CandidateData candidate)))
  end.

(** *** The [re] module, on the patterns [search_candidates] builds *)

Module re.

Definition backslash : ascii := "092"%char.

(** The characters [re.escape] puts a backslash before:
    [()[]{}?*+-|^$\.&~#], the space, TAB, LF, CR, VT and FF. *)
Definition special_codes : list N :=
  [40; 41; 91; 93; 123; 125; 63; 42; 43; 45; 124; 94; 36; 92; 46; 38; 126;
   35; 32; 9; 10; 13; 11; 12]%N.

Definition is_special (c : ascii) : bool :=
  bool_decide (PyStr.code c ∈ special_codes).

Fixpoint escape (s : string) : string :=
  match s with
  | EmptyString => EmptyString
  | String c s' =>
      if is_special c then String backslash (String c (escape s'))
      else String c (escape s')
  end.

(** The characters that are operators when not escaped: [.^$*+?{}[]|()]. *)
Definition operator_codes : list N :=
  [46; 94; 36; 42; 43; 63; 123; 125; 91; 93; 124; 40; 41]%N.

Definition is_operator (c : ascii) : bool :=
  bool_decide (PyStr.code c ∈ operator_codes).

Inductive op : Type :=
  | AT_BOUNDARY
  | LITERAL (c : ascii).

(** The parser on the fragment made of literals, escaped punctuation
    and [\b]; operators and the other letter or digit escapes are left
    out of the model. *)
Fixpoint parse (pattern : string) : outcome (list op) :=
  match pattern with
  | EmptyString => Returns []
  | String c rest =>
      if bool_decide (c = backslash) then
        match rest with
        | EmptyString => Raises ReError
        | String e rest' =>
            if bool_decide (e = "b"%char) then
              ops ← parse rest'; Returns (AT_BOUNDARY :: ops)
            else if PyStr.is_alnum e then OutOfModel
            else ops ← parse rest'; Returns (LITERAL e :: ops)
        end
      else if is_operator c then OutOfModel
      else ops ← parse rest; Returns (LITERAL c :: ops)
  end.

Record Pattern : Type := mkPattern {
  ops : list op;
  IGNORECASE : bool
}.

Definition compile (pattern : string) (ignorecase : bool) : outcome Pattern :=
  ops ← parse pattern;
  Returns (mkPattern ops ignorecase).








End re.




Section Search.

(** The store query of [search_candidates]: the rows in which one of the
    five searchable columns is [ILIKE] the pattern, ordered by
    [full_name].  The SQL engine is outside the repository. *)
Variable select_ilike : string -> list Candidate -> list Candidate.


End Search.

(** ** The documented shape of the applicant documents

    [basic_info.json] is [{"data": {"fullName": str, "title": str,
    "experience": [...], "education": [...]}}] and [personal_info.json]
    is [{"data": {"primaryEmail": str, "linkedinUrl": str,
    "displayUrls": [str]}}]; every member may be missing. *)

Definition is_str (v : json) : bool :=
  match v with JStr _ => true | _ => false end.

Definition is_optional_str (v : json) : bool :=
  match v with JStr _ | JNull => true | _ => false end.

Definition is_list_of (ok : json -> bool) (v : json) : bool :=
  match v with JArr items => forallb ok items | _ => false end.

(** The member [k] is missing or passes [ok]. *)
Definition member_ok (ok : json -> bool) (members : list (string * json)) (k : string) : bool :=
  match members_lookup members k with
  | None => true
  | Some v => ok v
  end.

(** A record: a mapping whose fields [keys], where present, are strings. *)
Definition is_record (keys : list string) (v : json) : bool :=
  match v with
  | JObj members => forallb (member_ok is_str members) keys
  | _ => false
  end.

Definition experience_keys : list string := ["title"; "work"].

Definition education_keys : list string := ["degree"; "major"; "school"].

Definition basic_data_ok (v : json) : bool :=
  match v with
  | JObj members =>
      member_ok is_str members "fullName" &&
      member_ok is_optional_str members "title" &&
      member_ok (is_list_of (is_record experience_keys)) members "experience" &&
      member_ok (is_list_of (is_record education_keys)) members "education"
  | _ => false
  end.

Definition personal_data_ok (v : json) : bool :=
  match v with
  | JObj members =>
      member_ok is_optional_str members "primaryEmail" &&
      member_ok is_optional_str members "linkedinUrl" &&
      member_ok (is_list_of is_str) members "displayUrls"
  | _ => false
  end.

(** A document that is missing, unparseable, or of the documented shape. *)
Definition document_ok (data_ok : json -> bool) (d : document) : bool :=
  match d with
  | Parsed (JObj members) => member_ok data_ok members "data"
  | Parsed _ => false
  | Unreadable FileNotFoundError | Unreadable JSONDecodeError => true
  | Unreadable _ => false
  end.

Definition folder_ok (f : folder) : bool :=
  document_ok basic_data_ok (basic_info_json f) &&
  document_ok personal_data_ok (personal_info_json f).

(** The document with a missing or unparseable file read as [{}]. *)
Definition as_empty_mapping (d : document) : document :=
  match d with
  | Unreadable FileNotFoundError | Unreadable JSONDecodeError => Parsed (JObj [])
  | _ => d
  end.

(** Whether the basic-info document gives a full name. *)
Definition has_full_name (d : document) : bool :=
  match as_empty_mapping d with
  | Parsed (JObj members) =>
      match default (JObj []) (members_lookup members "data") with
      | JObj data => bool_decide (is_Some (members_lookup data "fullName"))
      | _ => false
      end
  | _ => false
  end.

(** ** The flatteners, as the specification words them *)

Definition members_of (v : json) : list (string * json) :=
  match v with JObj members => members | _ => [] end.

(** The value of a field of a record, the empty string when it is absent. *)
Definition field (record : json) (k : string) : string :=
  match members_lookup (members_of record) k with
  | Some (JStr s) => s
  | _ => ""
  end.

Definition nonempty (s : string) : bool := negb (PyStr.is_empty s).

(** The record has a non-empty relevant field. *)
Definition has_present (keys : list string) (record : json) : bool :=
  existsb (fun k => nonempty (field record k)) keys.

(** The per-record text as claimed: the present fields, in the order of
    [keys], joined by single spaces and trimmed. *)
Definition present_text (keys : list string) (record : json) : string :=
  PyStr.strip (PyStr.join " " (List.filter nonempty (map (field record) keys))).

(** The per-record text with every field in its place: the values of all
    the fields, an absent one counting as the empty string, joined by
    single spaces and trimmed. *)
Definition placed_text (keys : list string) (record : json) : string :=
  PyStr.strip (PyStr.join " " (map (field record) keys)).

(** One text per record that has a non-empty relevant field, in input
    order, joined by [", "]. *)
Definition flattened (text : json -> string) (keys : list string) (records : list json)
    : string :=
  PyStr.join ", " (map text (List.filter (has_present keys) records)).

(** A record with a first and a last but no middle field. *)
Definition has_gap (record : json) : bool :=
  nonempty (field record "degree") && negb (nonempty (field record "major"))
  && nonempty (field record "school").

(** ** The applicant folders of a directory, as the scan meets them *)

Definition entry_ok (e : dir_entry) : bool :=
  match e with
  | RegularFile => true
  | Directory f => folder_ok f
  end.

Definition folder_name_of (entry : string * dir_entry) : option string :=
  match entry with
  | (name, Directory _) => Some name
  | (_, RegularFile) => None
  end.

(** The names of the subdirectories of a listing, in its order. *)
Definition folder_names (listing : list (string * dir_entry)) : list string :=
  omap folder_name_of listing.

Definition applicant_folders (entries : gmap string dir_entry) : list string :=
  folder_names (sorted_iterdir entries).

(** The folder names a table holds. *)
Definition known (table : list Candidate) : list string :=
  folder_name <$> table.

(** *** Sequences of review requests *)

Inductive api_op : Type :=
  | GetCandidate (candidate_id : Z)
  | UpdateCandidate (candidate_id : Z) (update : CandidateUpdate).

Definition run_op (op : api_op) : M ApiResponse :=
  match op with
  | GetCandidate i => get_candidate i
  | UpdateCandidate i u => update_candidate i u
  end.

(** The requests served one after the other; a request that fails leaves
    the store as it found it and the next one is served all the same. *)
Fixpoint run_ops (ops : list api_op) (w : World) : World :=
  match ops with
  | [] => w
  | op :: rest => run_ops rest (snd (run_op op w))
  end.

(** The [viewed_at] column of the row with the given id. *)
Definition viewed_at_of (candidate_id : Z) (w : World) : option datetime :=
  c ← find (has_id candidate_id) (rows w); viewed_at c.

(** ** Sample data: the fixtures of [tests/conftest.py] *)

Definition test_basic_info : json :=
  JObj [("status", JNum "200");
        ("data", JObj [
           ("fullName", JStr "Test Candidate");
           ("title", JStr "Engineer at TestCorp");
           ("experience", JArr [
              JObj [("title", JStr "Engineer"); ("work", JStr "TestCorp");
                    ("time", JArr [JStr "2022-01"; JStr "2024-01"])]]);
           ("education", JArr [
              JObj [("degree", JStr "BS"); ("major", JStr "CS");
                    ("school", JStr "Test University");
                    ("time", JArr [JStr "2018-09"; JStr "2022-05"])]])])].

Definition test_personal_info : json :=
  JObj [("status", JNum "200");
        ("data", JObj [
           ("primaryEmail", JStr "test@example.com");
           ("linkedinUrl", JStr "https://linkedin.com/in/test");
           ("displayUrls", JArr [JStr "https://github.com/test";
                                 JStr "https://arxiv.org/abs/1234"])])].

(** The dummy [cv.pdf] of the fixture is not a PDF: [fitz.open] fails. *)
Definition test_folder : folder :=
  mkFolder (Parsed test_basic_info) (Parsed test_personal_info) (Some OpenFails).

Definition empty_folder : folder :=
  mkFolder (Unreadable FileNotFoundError) (Unreadable FileNotFoundError) None.

Definition test_entries : gmap string dir_entry :=
  <["Test-Candidate" := Directory test_folder]>
    (<["notes.txt" := RegularFile]>
       (<["Empty-Folder" := Directory empty_folder]> ∅)).

Definition test_disk (path : string) : path_state :=
  if bool_decide (path = "applicants") then ApplicantsDir test_entries else Absent.

Definition test_world : World :=
  mkWorld (fun n => 1000 + Z.of_nat n) 0 [] true "applicants" test_disk [] [] [].

Definition sample_candidate : Candidate :=
  mkCandidate (Some 1) "John-Doe" "John Doe" (Some "Software Engineer at Google")
    (Some "john@example.com") (Some "https://linkedin.com/in/johndoe")
    (Some (Dumps (JArr [JStr "https://github.com/johndoe"]))) None None
    (Some "Software Engineer Google, Intern Microsoft")
    (Some "PhD Computer Science MIT") None
    false None false None 10 10.

(** A store that already holds the folder [Test-Candidate]. *)
Definition loaded_before : Candidate :=
  mkCandidate (Some 1) "Test-Candidate" "Test Candidate" (Some "Engineer at TestCorp")
    None None None None None None None None false None false None 10 10.

Definition rescan_world : World :=
  mkWorld (fun n => 1000 + Z.of_nat n) 0 [] true "applicants" test_disk
    [loaded_before] [] [].

Definition sample_world : World :=
  mkWorld (fun n => 1000 + Z.of_nat n) 0 [] true "applicants" test_disk
    [sample_candidate] [] [].

(** ** The session during a scan *)

(** The new objects of the session are distinct folders the table does
    not hold, so that flushing them succeeds. *)
Definition pending_ok (w : World) : Prop :=
  NoDup (known (pending w)) /\
  forall n, n ∈ known (pending w) -> n ∉ known (rows w ++ flushed w).

(** The folder names the session sees: committed, flushed and pending. *)
Definition all_known (w : World) : list string :=
  known (rows w ++ flushed w ++ pending w).

(** ** backend/app.py *)

(** [try: body finally: final] *)
Definition try_finally {A} (body : M A) (final : M unit) : M A := fun w =>
  match body w with
  | (r, w') =>
      match final w' with
      | (Returns _, w'') => (r, w'')
      | (Raises e, w'') => (Raises e, w'')
      | (OutOfModel, w'') => (OutOfModel, w'')
      end
  end.

(** [session.close()]: what the session has not committed is dropped. *)
Definition session_close : M unit :=
  modify (fun w => with_pending [] (with_flushed [] w)).

(** The start-up of [lifespan], on the value of the environment variable
    [APPLICANTS_PATH]; the table exists, so that [init_db] has nothing to
    create. *)
Definition lifespan (APPLICANTS_PATH : option string) : M unit :=
  _ ← match APPLICANTS_PATH with
      | Some applicants_path =>
          if PyStr.is_empty applicants_path then mret tt
          else set_applicants_path applicants_path
      | None => mret tt
      end;
  try_finally (load_candidates_from_disk None) session_close.

(** ** Relations between the world before and after a run *)

(** Whatever the outcome of [m], the world it leaves is related by [R] to
    the world it started in. *)
Definition preserved {A} (R : relation World) (m : M A) : Prop :=
  forall w, R w (m w).2.

(** A relation that does not look at the position of the clock or at the
    standard output. *)
Class Unobserving (R : relation World) : Prop := {
  unobserving_preorder :: PreOrder R;
  unobserving_ticks n w : R w (with_ticks n w);
  unobserving_stdout o w : R w (with_stdout o w)
}.

(** A relation that, moreover, does not look at what the session holds
    uncommitted. *)
Class SessionBlind (R : relation World) : Prop := {
  session_blind_unobserving :: Unobserving R;
  session_blind_pending p w : R w (with_pending p w);
  session_blind_flushed f w : R w (with_flushed f w)
}.

(** The committed table is the same. *)
Definition same_rows (w w' : World) : Prop := rows w' = rows w.

(** The committed table and the session are the same. *)
Definition same_session (w w' : World) : Prop :=
  rows w' = rows w /\ flushed w' = flushed w /\ pending w' = pending w.

(** The configured path, the disk, the library and the clock are the same. *)
Definition same_setting (w w' : World) : Prop :=
  _applicants_path w' = _applicants_path w /\ disk w' = disk w /\
  HAS_PYMUPDF w' = HAS_PYMUPDF w /\ wall_clock w' = wall_clock w.

(** ** backend/routes.py: the list, the resume and the statistics *)

(** An [ApiResponse] whose [data] is of type [D]. *)
Record Response (D : Type) : Type := mkResponse {
  resp_status : bool;
  resp_message : string;
  resp_data : D
}.

Arguments mkResponse {D} _ _ _.
Arguments resp_status {D} _.
Arguments resp_message {D} _.
Arguments resp_data {D} _.

Record CandidateSummary : Type := mkCandidateSummary {
  sum_id : option Z;
  sum_folder_name : string;
  sum_full_name : string;
  sum_title : option string;
  sum_starred : bool;
  sum_viewed : bool;
  has_notes : bool
}.

(** [bool(s)] for an [Optional[str]] *)
Definition py_bool (s : option string) : bool :=
  match s with
  | Some s => negb (PyStr.is_empty s)
  | None => false
  end.

Definition summary_of (c : Candidate) : CandidateSummary :=
  mkCandidateSummary (id c) (folder_name c) (full_name c) (title c)
    (starred c) (viewed c) (py_bool (notes c)).

Section Listing.

(** [select(Candidate).order_by(Candidate.full_name)]: the SQL engine is
    outside the repository. *)
Variable order_by_full_name : list Candidate -> list Candidate.

Definition get_candidates : M (Response (list CandidateSummary)) :=
  candidates ← gets (fun w => order_by_full_name (rows w));
  let summary := map summary_of candidates in
  mret (mkResponse true
          ("Retrieved " +:+ pretty (List.length summary) +:+ " candidates")
          summary).

End Listing.




Record Stats : Type := mkStats {
  stats_total : Z;
  stats_viewed : Z;
  unviewed : Z;
  stats_starred : Z;
  with_notes : Z
}.

(** [sum(1 for c in candidates if p(c))] *)
Definition sum_ones (p : Candidate -> bool) (candidates : list Candidate) : Z :=
  foldr (fun c acc => if p c then 1 + acc else acc) 0 candidates.

Definition stats (all_candidates : list Candidate) : Stats :=
  let total := Z.of_nat (List.length all_candidates) in
  let viewed := sum_ones viewed all_candidates in
  let starred := sum_ones starred all_candidates in
  let with_notes := sum_ones (fun c => py_bool (notes c)) all_candidates in
  mkStats total viewed (total - viewed) starred with_notes.

Definition get_stats : M (Response Stats) :=
  all_candidates ← gets rows;
  mret (mkResponse true "Stats retrieved" (stats all_candidates)).

(** ** The fields of a candidate the review requests are not to touch *)

Definition same_profile (c c' : Candidate) : Prop :=
  id c' = id c /\ folder_name c' = folder_name c /\ full_name c' = full_name c /\
  title c' = title c /\ primary_email c' = primary_email c /\
  linkedin_url c' = linkedin_url c /\ display_urls c' = display_urls c /\
  experience c' = experience c /\ education c' = education c /\
  experience_text c' = experience_text c /\ education_text c' = education_text c /\
  cv_text c' = cv_text c /\ created_at c' = created_at c.

(** An update request stamps [viewed_at]: it sets [viewed] and finds
    [viewed_at] not set. *)
Definition stamps (update : CandidateUpdate) (c : Candidate) : bool :=
  bool_decide (upd_viewed update = Some true) && negb (bool_decide (is_Some (viewed_at c))).

(** ** Whole-word search, as a property of the text *)

(** The characters of a [str] as regular-expression literals. *)
Fixpoint literals (s : string) : list re.op :=
  match s with
  | EmptyString => []
  | String c s' => re.LITERAL c :: literals s'
  end.




(** ** The values [in] accepts on its right *)

Definition is_container (v : json) : bool :=
  match v with
  | JStr _ | JArr _ | JObj _ => true
  | _ => false
  end.

(** ["arxiv.org" not in u] holds. *)
Definition without_arxiv (u : json) : bool :=
  match py_in "arxiv.org" u with
  | Returns false => true
  | _ => false
  end.

(** ** Lines of text *)

(** The character [c] occurs in [s]. *)
Fixpoint occurs (c : ascii) (s : string) : bool :=
  match s with
  | EmptyString => false
  | String x s' => bool_decide (x = c) || occurs c s'
  end.

(** The character, if there is one, is not whitespace. *)
Definition not_space_at (c : option ascii) : bool :=
  match c with
  | Some x => negb (PyStr.is_space x)
  | None => true
  end.

(** A line of cleaned text: not empty, without a line feed, and with no
    whitespace at either end. *)
Definition clean_line (line : string) : Prop :=
  line <> "" /\ occurs LF line = false /\
  not_space_at (PyStr.first_char line) = true /\
  not_space_at (PyStr.last_char line) = true /\
  PyStr.strip line = line.

(** The lines [clean_text] keeps. *)
Definition kept_lines (text_parts : list string) : list string :=
  List.filter nonempty
    (map PyStr.strip (PyStr.split LF (PyStr.join (String LF (String LF "")) text_parts))).

(** ** Invariants of the review fields *)

(** A candidate marked as viewed has a viewing time. *)
Definition viewed_has_time (c : Candidate) : Prop :=
  viewed c = true -> is_Some (viewed_at c).

(** The clock does not go back. *)
Definition monotone (clock : nat -> datetime) : Prop :=
  forall m n, (m <= n)%nat -> clock m <= clock n.

(** The time stamps of a candidate are in order, and not after [now]:
    created, then viewed if ever, then updated. *)
Definition stamps_ordered (now : datetime) (c : Candidate) : Prop :=
  created_at c <= updated_at c /\ updated_at c <= now /\
  forall t, viewed_at c = Some t -> t <= updated_at c.

(** ** Rows as the scan stores them *)

(** The review fields at their defaults. *)
Definition unreviewed (c : Candidate) : Prop :=
  starred c = false /\ notes c = None /\ viewed c = false /\ viewed_at c = None.

(** What holds of the session all along a scan: the rows it has
    inserted have an id and are unreviewed, the objects it has not yet
    sent are unreviewed, and the ids are distinct if they were in the
    table. *)
Definition scan_inv (w : World) : Prop :=
  Forall (fun c => is_Some (id c) /\ unreviewed c) (flushed w) /\
  Forall unreviewed (pending w) /\
  (NoDup (id <$> rows w) -> NoDup (id <$> (rows w ++ flushed w))).

(** A directory with a folder whose [basic_info.json] cannot be opened. *)
Definition locked_folder : folder :=
  mkFolder (Unreadable PermissionError) (Unreadable FileNotFoundError) None.

Definition locked_entries : gmap string dir_entry :=
  <["Locked" := Directory locked_folder]> test_entries.

Definition locked_world : World :=
  mkWorld (fun n => 1000 + Z.of_nat n) 0 [] true "applicants"
    (fun _ => ApplicantsDir locked_entries) [] [] [].

Definition is_mapping (v : json) : bool :=
  match v with
  | JObj _ => true
  | _ => false
  end.

(** * Properties *)

(** ** Strings *)

Lemma app_cons (c : ascii) (s t : string) : String c s +:+ t = String c (s +:+ t).
Proof. reflexivity. Qed.

Lemma app_empty_l (s : string) : "" +:+ s = s.
Proof. reflexivity. Qed.

Lemma app_empty_r (s : string) : s +:+ "" = s.
Proof. induction s as [|c s IH]; [done|]. by rewrite app_cons, IH. Qed.

Lemma app_assoc_str (a b c : string) : (a +:+ b) +:+ c = a +:+ (b +:+ c).
Proof. induction a as [|x a IH]; [done|]. by rewrite !app_cons, IH. Qed.

(** [needle] occurs in [hay]. *)
Definition is_substring (needle hay : string) : Prop :=
  exists pre post, hay = pre +:+ needle +:+ post.

Lemma startswith_spec (needle hay : string) :
  PyStr.startswith needle hay = true <-> exists post, hay = needle +:+ post.
Proof.
  revert hay. induction needle as [|a n IH]; intros hay; simpl.
  - split; [intros _; by exists hay | done].
  - destruct hay as [|b h].
    + split; [done | intros [post H]; done].
    + rewrite andb_true_iff, bool_decide_eq_true, IH. split.
      * intros [-> [post ->]]. by exists post.
      * intros [post H]. rewrite app_cons in H. injection H as -> ->.
        split; [done | by exists post].
Qed.

Lemma contains_spec (needle hay : string) :
  PyStr.contains needle hay = true <-> is_substring needle hay.
Proof.
  induction hay as [|b h IH].
  - simpl. rewrite orb_false_r, startswith_spec. split.
    + intros [post H]. by exists "", post.
    + intros [[|x pre] [post H]]; [by exists post | done].
  - cbn [PyStr.contains]. rewrite orb_true_iff, startswith_spec, IH. split.
    + intros [[post H] | [pre [post H]]].
      * by exists "", post.
      * exists (String b pre), post. by rewrite app_cons, H.
    + intros [[|x pre] [post H]].
      * left. by exists post.
      * right. rewrite app_cons in H. injection H as -> ->. by exists pre, post.
Qed.

#[global] Instance is_substring_dec needle hay : Decision (is_substring needle hay).
Proof.
  destruct (PyStr.contains needle hay) eqn:E.
  - left. by apply contains_spec.
  - right. intros H%contains_spec. congruence.
Defined.

(** ** The monad *)

Lemma bind_returns {A B} (m : M A) (k : A -> M B) w b w' :
  (m ≫= k) w = (Returns b, w') ->
  exists a w1, m w = (Returns a, w1) /\ k a w1 = (Returns b, w').
Proof.
  unfold mbind, M_bind. destruct (m w) as [[a|e|] w1]; intros H; try done.
  by exists a, w1.
Qed.

Lemma lift_returns {A} (o : outcome A) w a w' :
  lift o w = (Returns a, w') -> o = Returns a /\ w' = w.
Proof. unfold lift. by intros [= -> ->]. Qed.

Lemma outcome_bind_returns {A B} (m : outcome A) (k : A -> outcome B) b :
  m ≫= k = Returns b -> exists a, m = Returns a /\ k a = Returns b.
Proof. destruct m as [a|e|]; intros H; try done. by exists a. Qed.

(** ** URL filter *)

Lemma filter_urls_from_strings (urls : list string) :
  filter_urls_from (JStr <$> urls)
  = Returns (JStr <$> filter (fun u => ~ is_substring "arxiv.org" u) urls).
Proof.
  induction urls as [|u urls IH]; [done|].
  cbn [fmap list_fmap filter_urls_from py_in]. fold (JStr <$> urls). rewrite IH.
  rewrite filter_cons. cbn [mbind outcome_bind].
  destruct (PyStr.contains "arxiv.org" u) eqn:E.
  - rewrite decide_False; [done|]. intros H. apply H. by apply contains_spec.
  - rewrite decide_True; [done|]. intros H%contains_spec. congruence.
Qed.

Lemma filter_urls_from_kept (items kept : list json) (u : string) :
  filter_urls_from items = Returns kept ->
  JStr u ∈ kept -> ~ is_substring "arxiv.org" u.
Proof.
  revert kept. induction items as [|v items IH]; intros kept H Hin.
  - injection H as <-. by apply elem_of_nil in Hin.
  - cbn [filter_urls_from] in H.
    apply outcome_bind_returns in H as (excluded & Hex & H).
    apply outcome_bind_returns in H as (kept' & Hk & H).
    injection H as <-. destruct excluded.
    + by apply (IH kept').
    + apply elem_of_cons in Hin as [<- | Hin]; [|by apply (IH kept')].
      cbn in Hex. injection Hex as Hex. intros Hs%contains_spec. congruence.
Qed.

Ltac inv_bind H :=
  let a := fresh "a" in
  let w1 := fresh "w" in
  let Hm := fresh "Hm" in
  apply bind_returns in H as (a & w1 & Hm & H);
  try (apply lift_returns in Hm as [Hm ->]).

Lemma mret_returns {A} (a b : A) w w' :
  (mret a : M A) w = (Returns b, w') -> a = b /\ w = w'.
Proof. by intros [= -> ->]. Qed.

(** What a run of the loader that returns has computed. *)
Lemma load_candidate_from_folder_inv name f w c w' :
  load_candidate_from_folder name f w = (Returns c, w') ->
  exists basic_info personal_info data personal_data display_urls' filtered_urls,
    load_json (basic_info_json f) = Returns basic_info /\
    load_json (personal_info_json f) = Returns personal_info /\
    py_get basic_info "data" (JObj []) = Returns data /\
    py_get personal_info "data" (JObj []) = Returns personal_data /\
    py_get data "fullName" (JStr (PyStr.replace "-" " " name)) = Returns (JStr (full_name c)) /\
    py_get personal_data "displayUrls" (JArr []) = Returns display_urls' /\
    filter_urls display_urls' = Returns filtered_urls /\
    display_urls c = Some (Dumps (JArr filtered_urls)) /\
    folder_name c = name /\ id c = None /\
    starred c = false /\ notes c = None /\ viewed c = false /\ viewed_at c = None.
Proof.
  intros H. unfold load_candidate_from_folder in H.
  repeat inv_bind H.
  apply mret_returns in H as [<- _]. cbn.
  match goal with
  | Hs : as_str ?v = Returns _ |- _ =>
      destruct v; try discriminate Hs; injection Hs as ->
  end.
  eauto 20.
Qed.

(** C7. On every list of URL strings [filter_urls] returns, without
    raising, the list with exactly the entries containing ["arxiv.org"]
    removed: the other entries are kept as they are, in their order and
    as often as they occur.  The empty list yields the empty list.  The
    [display_urls] of every Candidate the folder loader returns encodes a
    list in which no URL contains ["arxiv.org"]. *)
Theorem filter_urls_removes_exactly_arxiv (urls : list string) :
  filter_urls (JArr (JStr <$> urls))
  = Returns (JStr <$> filter (fun u => ~ is_substring "arxiv.org" u) urls)
  /\ filter_urls (JArr []) = Returns []
  /\ forall name f w c w',
       load_candidate_from_folder name f w = (Returns c, w') ->
       exists kept,
         display_urls c = Some (Dumps (JArr kept)) /\
         forall u, JStr u ∈ kept -> ~ is_substring "arxiv.org" u.
Proof.
  split; [|split].
  - apply filter_urls_from_strings.
  - reflexivity.
  - intros name f w c w' H.
    apply load_candidate_from_folder_inv in H
      as (bi & pi & d & pd & du & kept & _ & _ & _ & _ & _ & _ & Hf & Hd & _).
    exists kept. split; [done|]. intros u Hu.
    unfold filter_urls in Hf.
    apply outcome_bind_returns in Hf as (items & _ & Hf).
    by apply (filter_urls_from_kept items kept).
Qed.

Lemma filter_urls_removes_exactly_arxiv_witness :
  exists c w' kept,
    load_candidate_from_folder "Test-Candidate" test_folder test_world = (Returns c, w') /\
    display_urls c = Some (Dumps (JArr kept)) /\
    forall u, JStr u ∈ kept -> ~ is_substring "arxiv.org" u.
Proof.
  destruct (load_candidate_from_folder "Test-Candidate" test_folder test_world)
    as [o w'] eqn:H.
  destruct o as [c|e|]; [|vm_compute in H; discriminate..].
  destruct (proj2 (proj2 (filter_urls_removes_exactly_arxiv [])) _ _ _ _ _ H)
    as (kept & Hd & Hk).
  by exists c, w', kept.
Defined.

(** ** The store *)

Lemma find_after_save (cid : Z) (c c' : Candidate) (table : list Candidate) :
  find (has_id cid) table = Some c ->
  id c' = Some cid ->
  find (has_id cid)
       (map (fun r => if bool_decide (id r = id c') then c' else r) table) = Some c'.
Proof.
  intros Hfind Hid. rewrite Hid. induction table as [|r table IH]; [done|].
  cbn [find map] in *. fold (has_id cid r).
  destruct (has_id cid r) eqn:E.
  - unfold has_id. by rewrite Hid, bool_decide_eq_true_2.
  - rewrite E. by apply IH.
Qed.

Lemma find_after_save_same (cid : Z) (c c' : Candidate) (table : list Candidate) :
  find (has_id cid) table = Some c ->
  id c' = id c ->
  find (has_id cid)
       (map (fun r => if bool_decide (id r = id c) then c' else r) table) = Some c'.
Proof.
  intros Hfind Hid. rewrite <- Hid. apply (find_after_save cid c); [done|].
  rewrite Hid. clear Hid. induction table as [|r table IH]; [done|].
  cbn [find] in Hfind. destruct (has_id cid r) eqn:E; [|by apply IH].
  injection Hfind as <-. unfold has_id in E. by apply bool_decide_eq_true in E.
Qed.

Lemma find_has_id (cid : Z) (c : Candidate) (table : list Candidate) :
  find (has_id cid) table = Some c -> id c = Some cid.
Proof.
  induction table as [|r table IH]; [done|]. cbn [find].
  unfold has_id at 1. case_bool_decide; [|done]. by intros [= <-].
Qed.

(** ** Disk scan on a missing root *)

(** C8. When the root path does not exist, the disk scan returns normally
    (no exception reaches the caller): it prints the warning and nothing
    else changes, so the committed table, and the session, are as before
    and no row was inserted. *)
Theorem load_candidates_from_disk_missing_root (applicants_path : option string) (w : World) :
  disk w (default (_applicants_path w) applicants_path) = Absent ->
  exists w',
    load_candidates_from_disk applicants_path w = (Returns tt, w') /\
    w' = with_stdout
           (stdout w ++ [LogPathMissing (default (_applicants_path w) applicants_path)]) w /\
    rows w' = rows w /\ flushed w' = flushed w /\ pending w' = pending w.
Proof.
  intros Habsent. eexists. split; [|split; [reflexivity|done]].
  unfold load_candidates_from_disk.
  destruct applicants_path as [p|]; cbn in *;
    unfold mbind, M_bind, mret, M_ret, get_applicants_path, gets; cbn;
    by rewrite Habsent.
Qed.

Lemma load_candidates_from_disk_missing_root_witness :
  disk sample_world "no-such-directory" = Absent /\
  exists w',
    load_candidates_from_disk (Some "no-such-directory") sample_world = (Returns tt, w') /\
    w' = with_stdout (stdout sample_world ++ [LogPathMissing "no-such-directory"]) sample_world /\
    rows w' = rows sample_world /\ flushed w' = flushed sample_world /\
    pending w' = pending sample_world.
Proof.
  split; [reflexivity|].
  apply (load_candidates_from_disk_missing_root (Some "no-such-directory") sample_world).
  reflexivity.
Defined.

(** ** Review API *)

Ltac run_handler :=
  unfold get_candidate, update_candidate, session_get, session_save, utc_now,
         not_found, raise, lift, gets, modify, mbind, M_bind, mret, M_ret;
  cbn.

Definition retrieved (c : Candidate) : ApiResponse :=
  mkApiResponse true "Candidate retrieved" (Some (CandidateData c)).

Definition updated (c : Candidate) : ApiResponse :=
  mkApiResponse true "Candidate updated" (Some (CandidateData c)).

Lemma get_candidate_viewed (w : World) (cid : Z) (c : Candidate) :
  find (has_id cid) (rows w) = Some c ->
  viewed c = true ->
  get_candidate cid w = (Returns (retrieved c), w).
Proof. intros Hfind Hv. run_handler. by rewrite Hfind, Hv. Qed.

(** C9. A get-candidate call on a stored candidate with [viewed] false
    returns it with [viewed] true and [viewed_at] set to the reading of
    the clock, and stores it so; a get-candidate call on a stored
    candidate with [viewed] true returns it and changes nothing, so the
    second of two calls leaves [viewed_at] as the first one set it. *)
Theorem get_candidate_stamps_first_view (w : World) (cid : Z) (c : Candidate) :
  find (has_id cid) (rows w) = Some c ->
  (viewed c = false ->
   exists c' w',
     get_candidate cid w = (Returns (retrieved c'), w') /\
     viewed c' = true /\
     viewed_at c' = Some (wall_clock w (ticks w)) /\
     find (has_id cid) (rows w') = Some c' /\
     get_candidate cid w' = (Returns (retrieved c'), w')) /\
  (viewed c = true ->
   get_candidate cid w = (Returns (retrieved c), w)).
Proof.
  intros Hfind. pose proof (find_has_id _ _ _ Hfind) as Hid. split; intros Hv.
  - set (c' := set_updated_at (wall_clock w (S (ticks w)))
                 (set_viewed_at (Some (wall_clock w (ticks w))) (set_viewed true c))).
    assert (Hsaved : find (has_id cid)
                (map (fun r => if bool_decide (id r = id c') then c' else r) (rows w))
              = Some c') by (by eapply find_after_save).
    exists c'. eexists. split.
    { run_handler. rewrite Hfind, Hv. cbn. reflexivity. }
    split; [done|]. split; [done|]. split; [exact Hsaved|].
    by apply get_candidate_viewed; [exact Hsaved|].
  - by apply get_candidate_viewed.
Qed.

Lemma get_candidate_stamps_first_view_witness :
  find (has_id 1) (rows sample_world) = Some sample_candidate /\
  viewed sample_candidate = false /\
  exists c' w',
    get_candidate 1 sample_world = (Returns (retrieved c'), w') /\
    viewed c' = true /\
    viewed_at c' = Some 1000 /\
    find (has_id 1) (rows w') = Some c' /\
    get_candidate 1 w' = (Returns (retrieved c'), w').
Proof.
  split; [reflexivity|]. split; [reflexivity|].
  apply (proj1 (get_candidate_stamps_first_view sample_world 1 sample_candidate eq_refl)).
  reflexivity.
Defined.

(** C10. An update-candidate request on a stored candidate returns
    normally, and the candidate it returns and stores differs from the
    stored one at most in [starred], [notes], [viewed], [viewed_at] and
    [updated_at]: the thirteen other fields are unchanged. *)
Theorem update_candidate_frame (w : World) (cid : Z) (update : CandidateUpdate)
    (c : Candidate) :
  find (has_id cid) (rows w) = Some c ->
  exists c' w',
    update_candidate cid update w = (Returns (updated c'), w') /\
    find (has_id cid) (rows w') = Some c' /\
    id c' = id c /\ folder_name c' = folder_name c /\ full_name c' = full_name c /\
    title c' = title c /\ primary_email c' = primary_email c /\
    linkedin_url c' = linkedin_url c /\ display_urls c' = display_urls c /\
    experience c' = experience c /\ education c' = education c /\
    experience_text c' = experience_text c /\ education_text c' = education_text c /\
    cv_text c' = cv_text c /\ created_at c' = created_at c.
Proof.
  intros Hfind. pose proof (find_has_id _ _ _ Hfind) as Hid.
  run_handler. rewrite Hfind. cbn.
  destruct update as [[b|] [n|] [[|]|]]; cbn;
    try destruct (viewed_at c) as [t|] eqn:Ht; cbn;
    (eexists _, _; split; [reflexivity|]; split; [|done];
     match goal with
     | |- find _ _ = Some ?x => exact (find_after_save cid c x (rows w) Hfind Hid)
     end).
Qed.

Lemma update_candidate_frame_witness :
  find (has_id 1) (rows sample_world) = Some sample_candidate /\
  exists c' w',
    update_candidate 1 (mkCandidateUpdate (Some true) (Some "Interview scheduled") (Some true))
      sample_world = (Returns (updated c'), w') /\
    find (has_id 1) (rows w') = Some c' /\
    id c' = id sample_candidate /\ folder_name c' = folder_name sample_candidate /\
    full_name c' = full_name sample_candidate /\
    title c' = title sample_candidate /\ primary_email c' = primary_email sample_candidate /\
    linkedin_url c' = linkedin_url sample_candidate /\
    display_urls c' = display_urls sample_candidate /\
    experience c' = experience sample_candidate /\ education c' = education sample_candidate /\
    experience_text c' = experience_text sample_candidate /\
    education_text c' = education_text sample_candidate /\
    cv_text c' = cv_text sample_candidate /\ created_at c' = created_at sample_candidate.
Proof.
  split; [reflexivity|].
  apply (update_candidate_frame sample_world 1 _ sample_candidate). reflexivity.
Defined.

(** The update path stamps [viewed_at] only when it is not set: whatever
    the request, a [viewed_at] that is set stays as it is. *)
Lemma update_candidate_keeps_viewed_at (w : World) (cid : Z) (update : CandidateUpdate)
    (c : Candidate) (t : datetime) :
  find (has_id cid) (rows w) = Some c ->
  viewed_at c = Some t ->
  viewed_at_of cid (snd (update_candidate cid update w)) = Some t.
Proof.
  intros Hfind Ht. pose proof (find_has_id _ _ _ Hfind) as Hid.
  unfold viewed_at_of. run_handler. rewrite Hfind. cbn.
  destruct update as [[b|] [n|] [[|]|]]; cbn; rewrite ?Ht; cbn;
    match goal with
    | |- context [map (fun r => if _ then ?x else r) _] =>
        rewrite (find_after_save_same cid c x (rows w) Hfind eq_refl)
    end; exact Ht.
Qed.

(** C1 (violated by the retrieval path). The sample candidate, never
    viewed, is retrieved, then patched with [viewed = false], then
    retrieved again, the clock reading 1000, 1001, ... at its successive
    calls.  The first retrieval stamps [viewed_at] with 1000; the second
    one, finding [viewed] false, stamps it again, with 1003. *)
Theorem get_candidate_restamps_after_unview :
  viewed_at_of 1 sample_world = None /\
  viewed_at_of 1 (run_ops [GetCandidate 1] sample_world) = Some 1000 /\
  viewed_at_of 1
    (run_ops [GetCandidate 1;
              UpdateCandidate 1 (mkCandidateUpdate None None (Some false))]
       sample_world) = Some 1000 /\
  viewed_at_of 1
    (run_ops [GetCandidate 1;
              UpdateCandidate 1 (mkCandidateUpdate None None (Some false));
              GetCandidate 1]
       sample_world) = Some 1003.
Proof. repeat split; vm_compute; reflexivity. Qed.

(** ** PDF text extraction *)

Lemma page_texts_in_model (pages : list (option string)) :
  page_texts pages <> OutOfModel.
Proof.
  induction pages as [|[text|] pages IH]; cbn; try done.
  destruct (page_texts pages); cbn; done.
Qed.

Lemma is_empty_true (s : string) : PyStr.is_empty s = true <-> s = "".
Proof. by destruct s. Qed.

(** C6. [extract_pdf_text] always returns, whatever the library does; it
    returns [None] when PyMuPDF is not installed, when the file does not
    exist, and when opening the document or reading a page raises; what it
    returns is never the empty string: when extraction succeeds the result
    is the cleaned text (each line stripped, the empty lines dropped, the
    others in their order), or [None] if that text is empty.  The store
    is not touched. *)
Theorem extract_pdf_text_best_effort (pdf_path : string) (cv : option pdf) (w : World) :
  exists r w',
    extract_pdf_text pdf_path cv w = (Returns r, w') /\
    rows w' = rows w /\
    r <> Some "" /\
    (HAS_PYMUPDF w = false -> r = None) /\
    (cv = None -> r = None) /\
    (forall file e,
       cv = Some file -> fitz_open file ≫= page_texts = Raises e -> r = None) /\
    (forall file text_parts,
       HAS_PYMUPDF w = true -> cv = Some file ->
       fitz_open file ≫= page_texts = Returns text_parts ->
       r = if PyStr.is_empty (clean_text text_parts) then None
           else Some (clean_text text_parts)).
Proof.
  unfold extract_pdf_text, get_world, try_except, print, modify, lift,
         mbind at 1, M_bind, mret, M_ret. cbn.
  destruct (HAS_PYMUPDF w) eqn:Hlib; cbn.
  2: { exists None, w. repeat split; try done. }
  destruct cv as [file|]; cbn.
  2: { exists None, w. repeat split; try done. }
  unfold mbind, M_bind. cbn.
  destruct (fitz_open file) as [doc|e|] eqn:Hopen; cbn.
  - destruct (page_texts doc) as [parts|e|] eqn:Hpages; cbn.
    + eexists _, w. split; [reflexivity|]. split; [done|]. split.
      { destruct (PyStr.is_empty (clean_text parts)) eqn:E; [done|].
        intros [= Hs]. rewrite Hs in E. done. }
      split; [done|]. split; [done|]. split.
      * intros f e [= <-]. rewrite Hopen. cbn. by rewrite Hpages.
      * intros f tp _ [= <-]. rewrite Hopen. cbn. rewrite Hpages. by intros [= <-].
    + eexists None, _. repeat split; try done.
      intros f tp _ [= <-]. rewrite Hopen. cbn. by rewrite Hpages.
    + by destruct (page_texts_in_model doc).
  - eexists None, _. repeat split; try done.
    intros f tp _ [= <-]. by rewrite Hopen.
  - by destruct file.
Qed.

Lemma extract_pdf_text_best_effort_witness :
  exists r w',
    extract_pdf_text "Test-Candidate/cv.pdf" (Some OpenFails) test_world = (Returns r, w') /\
    HAS_PYMUPDF test_world = true /\
    fitz_open OpenFails ≫= page_texts = Raises FitzError /\
    r = None.
Proof.
  destruct (extract_pdf_text_best_effort "Test-Candidate/cv.pdf" (Some OpenFails) test_world)
    as (r & w' & Hrun & _ & _ & _ & _ & Hraise & _).
  exists r, w'. split; [exact Hrun|]. split; [reflexivity|]. split; [reflexivity|].
  apply (Hraise OpenFails FitzError); reflexivity.
Defined.

(** ** Text flatteners *)

Lemma rstrip_app_space (s : string) : PyStr.rstrip (s +:+ " ") = PyStr.rstrip s.
Proof.
  induction s as [|c s IH]; [done|].
  rewrite app_cons. cbn [PyStr.rstrip]. by rewrite IH.
Qed.

Lemma strip_app_space (s : string) : PyStr.strip (s +:+ " ") = PyStr.strip s.
Proof. unfold PyStr.strip. by rewrite rstrip_app_space. Qed.

Lemma strip_space_app (s : string) : PyStr.strip (" " +:+ s) = PyStr.strip s.
Proof.
  unfold PyStr.strip. change (" " +:+ s) with (String " " s).
  cbn [PyStr.rstrip]. destruct (PyStr.rstrip s) as [|c r]; done.
Qed.

Lemma field_of_record (keys : list string) (members : list (string * json)) (k : string) :
  is_record keys (JObj members) = true -> k ∈ keys ->
  py_get (JObj members) k (JStr "") ≫= as_str = Returns (field (JObj members) k).
Proof.
  intros Hrec Hk. cbn in Hrec. rewrite forallb_forall in Hrec.
  specialize (Hrec k (proj1 (list_elem_of_In _ _) Hk)).
  unfold member_ok, field in *. cbn.
  destruct (members_lookup members k) as [[]|]; cbn in *; done.
Qed.

Lemma experience_parts_spec (items : list json) :
  forallb (is_record experience_keys) items = true ->
  experience_parts items
  = Returns (map (placed_text experience_keys)
               (List.filter (has_present experience_keys) items)).
Proof.
  induction items as [|r items IH]; [done|]. cbn [forallb].
  intros [Hr Hitems]%andb_true_iff. specialize (IH Hitems).
  destruct r as [| | | | |members]; try done.
  pose proof (field_of_record _ _ "title" Hr ltac:(set_solver)) as Ht.
  pose proof (field_of_record _ _ "work" Hr ltac:(set_solver)) as Hw.
  cbn [experience_parts]. cbn in Ht, Hw |- *.
  destruct (default (JStr "") (members_lookup members "title")) as [| | |t| |];
    try done.
  destruct (default (JStr "") (members_lookup members "work")) as [| | |wk| |];
    try done.
  cbn in Ht, Hw |- *. injection Ht as Ht. injection Hw as Hw.
  rewrite IH. cbn. unfold has_present, placed_text, nonempty. cbn.
  subst t wk. rewrite orb_false_r.
  destruct (negb (PyStr.is_empty (field (JObj members) "title"))
            || negb (PyStr.is_empty (field (JObj members) "work"))); reflexivity.
Qed.

Lemma education_parts_spec (items : list json) :
  forallb (is_record education_keys) items = true ->
  education_parts items
  = Returns (map (placed_text education_keys)
               (List.filter (has_present education_keys) items)).
Proof.
  induction items as [|r items IH]; [done|]. cbn [forallb].
  intros [Hr Hitems]%andb_true_iff. specialize (IH Hitems).
  destruct r as [| | | | |members]; try done.
  pose proof (field_of_record _ _ "degree" Hr ltac:(set_solver)) as Hd.
  pose proof (field_of_record _ _ "major" Hr ltac:(set_solver)) as Hm.
  pose proof (field_of_record _ _ "school" Hr ltac:(set_solver)) as Hs.
  cbn [education_parts]. cbn in Hd, Hm, Hs |- *.
  destruct (default (JStr "") (members_lookup members "degree")) as [| | |d| |];
    try done.
  destruct (default (JStr "") (members_lookup members "major")) as [| | |m| |];
    try done.
  destruct (default (JStr "") (members_lookup members "school")) as [| | |sc| |];
    try done.
  cbn in Hd, Hm, Hs |- *. injection Hd as Hd. injection Hm as Hm. injection Hs as Hs.
  rewrite IH. cbn. unfold has_present, placed_text, nonempty. cbn.
  subst d m sc. rewrite orb_false_r, orb_assoc.
  destruct (negb (PyStr.is_empty (field (JObj members) "degree"))
            || negb (PyStr.is_empty (field (JObj members) "major"))
            || negb (PyStr.is_empty (field (JObj members) "school"))); reflexivity.
Qed.

Ltac trim_spaces :=
  rewrite ?app_empty_l, ?app_empty_r;
  repeat (rewrite <- ?app_assoc_str; rewrite ?strip_app_space);
  repeat (rewrite ?app_assoc_str; rewrite ?strip_space_app).

Lemma placed_text_experience (record : json) :
  placed_text experience_keys record = present_text experience_keys record.
Proof.
  unfold placed_text, present_text, experience_keys, nonempty. cbn [map List.filter].
  destruct (field record "title") as [|a t], (field record "work") as [|b wk];
    cbn [PyStr.is_empty negb PyStr.join]; by trim_spaces.
Qed.

Lemma placed_text_education (record : json) :
  has_gap record = false ->
  placed_text education_keys record = present_text education_keys record.
Proof.
  unfold has_gap, placed_text, present_text, education_keys, nonempty.
  cbn [map List.filter].
  destruct (field record "degree") as [|a d], (field record "major") as [|b m],
           (field record "school") as [|c sc];
    cbn [PyStr.is_empty negb PyStr.join andb]; try discriminate; intros _;
    by trim_spaces.
Qed.

Lemma flattened_ext (text text' : json -> string) (keys : list string) (records : list json) :
  (forall r, r ∈ records -> text r = text' r) ->
  flattened text keys records = flattened text' keys records.
Proof.
  intros H. unfold flattened. f_equal. apply map_ext_in. intros r Hr.
  apply H. apply list_elem_of_In. apply filter_In in Hr. tauto.
Qed.

(** C4 (amended). On records whose relevant fields are strings, both
    flatteners return the per-record texts of the records having a
    non-empty relevant field, in input order, joined by [", "].  For an
    experience record the text is the trimmed space-join of its present
    fields, title then workplace.  For an education record it is the
    trimmed space-join of degree, major and school with an absent field
    counting as the empty string: that is the trimmed space-join of the
    present fields unless the record has a degree and a school but no
    major, so the claim holds for every education list without such a
    record. *)
Theorem flatteners_join_fields (experience education : list json) :
  forallb (is_record experience_keys) experience = true ->
  forallb (is_record education_keys) education = true ->
  flatten_experience (JArr experience)
  = Returns (flattened (present_text experience_keys) experience_keys experience) /\
  flatten_education (JArr education)
  = Returns (flattened (placed_text education_keys) education_keys education) /\
  (forall record, has_gap record = false ->
     placed_text education_keys record = present_text education_keys record) /\
  (existsb has_gap education = false ->
   flatten_education (JArr education)
   = Returns (flattened (present_text education_keys) education_keys education)).
Proof.
  intros Hexp Hedu.
  assert (Hflat : flatten_education (JArr education)
            = Returns (flattened (placed_text education_keys) education_keys education)).
  { unfold flatten_education. cbn. by rewrite (education_parts_spec _ Hedu). }
  split; [|split; [exact Hflat|split; [exact placed_text_education|]]].
  - unfold flatten_experience. cbn. rewrite (experience_parts_spec _ Hexp). cbn.
    f_equal. apply flattened_ext. intros r _. apply placed_text_experience.
  - intros Hgap. rewrite Hflat. f_equal. apply flattened_ext. intros r Hr.
    apply placed_text_education.
    destruct (has_gap r) eqn:E; [|done].
    assert (existsb has_gap education = true); [|congruence].
    apply existsb_exists. exists r. split; [by apply list_elem_of_In|done].
Qed.

Lemma flatteners_join_fields_witness :
  forallb (is_record experience_keys)
    [JObj [("title", JStr "Engineer"); ("work", JStr "Google")];
     JObj [("title", JStr "Intern"); ("work", JStr "Microsoft")]] = true /\
  forallb (is_record education_keys)
    [JObj [("degree", JStr "PhD"); ("major", JStr "CS"); ("school", JStr "MIT")]] = true /\
  flatten_experience
    (JArr [JObj [("title", JStr "Engineer"); ("work", JStr "Google")];
           JObj [("title", JStr "Intern"); ("work", JStr "Microsoft")]])
  = Returns "Engineer Google, Intern Microsoft" /\
  flatten_education
    (JArr [JObj [("degree", JStr "PhD"); ("major", JStr "CS"); ("school", JStr "MIT")]])
  = Returns "PhD CS MIT".
Proof.
  split; [reflexivity|]. split; [reflexivity|].
  destruct (flatteners_join_fields
    [JObj [("title", JStr "Engineer"); ("work", JStr "Google")];
     JObj [("title", JStr "Intern"); ("work", JStr "Microsoft")]]
    [JObj [("degree", JStr "PhD"); ("major", JStr "CS"); ("school", JStr "MIT")]]
    eq_refl eq_refl) as (Hexp & Hedu & _ & _).
  split; [exact Hexp | exact Hedu].
Defined.

(** C4, as stated, fails on an education record with a degree and a
    school but no major: the text keeps the place of the major, so two
    spaces separate the degree from the school. *)
Lemma flatten_education_keeps_the_gap :
  let record := JObj [("degree", JStr "PhD"); ("school", JStr "MIT")] in
  is_record education_keys record = true /\
  flatten_education (JArr [record]) = Returns "PhD  MIT" /\
  flattened (present_text education_keys) education_keys [record] = "PhD MIT" /\
  flatten_education (JArr [record])
  <> Returns (flattened (present_text education_keys) education_keys [record]).
Proof. repeat split; try reflexivity. vm_compute. discriminate. Qed.

(** ** Folder loader *)

Lemma bind_step {A B} (m : M A) (k : A -> M B) w a w1 :
  m w = (Returns a, w1) -> (m ≫= k) w = k a w1.
Proof. intros H. unfold mbind, M_bind. by rewrite H. Qed.

Lemma bind_lift {A B} (a : A) (k : A -> M B) w :
  (lift (Returns a) ≫= k) w = k a w.
Proof. reflexivity. Qed.

(** Extraction returns, and only the standard output may have grown. *)
Lemma extract_pdf_text_returns (pdf_path : string) (cv : option pdf) (w : World) :
  exists r out,
    extract_pdf_text pdf_path cv w = (Returns r, with_stdout out w).
Proof.
  unfold extract_pdf_text, get_world, try_except, print, modify, lift,
         mbind at 1, M_bind, mret, M_ret. cbn.
  assert (Hsame : with_stdout (stdout w) w = w) by (by destruct w).
  destruct (HAS_PYMUPDF w); cbn; [|exists None, (stdout w); by rewrite Hsame].
  destruct cv as [file|]; cbn; [|exists None, (stdout w); by rewrite Hsame].
  unfold mbind, M_bind. cbn.
  destruct (fitz_open file) as [doc|e|] eqn:Hopen; cbn.
  - destruct (page_texts doc) as [parts|e|] eqn:Hpages; cbn.
    + eexists _, (stdout w). by rewrite Hsame.
    + by eexists None, _.
    + by destruct (page_texts_in_model doc).
  - by eexists None, _.
  - by destruct file.
Qed.

Lemma load_json_ok (data_ok : json -> bool) (d : document) :
  document_ok data_ok d = true ->
  exists members,
    load_json d = Returns (JObj members) /\
    load_json (as_empty_mapping d) = Returns (JObj members) /\
    as_empty_mapping d = Parsed (JObj members) /\
    member_ok data_ok members "data" = true.
Proof.
  destruct d as [[| | | | |members]|[]]; cbn; try done; intros H;
    by eexists.
Qed.

Lemma str_member (members : list (string * json)) (k dflt : string) :
  member_ok is_str members k = true ->
  exists s,
    py_get (JObj members) k (JStr dflt) = Returns (JStr s) /\
    (members_lookup members k = None -> s = dflt).
Proof.
  unfold member_ok. cbn. destruct (members_lookup members k) as [[]|]; cbn; try done;
    intros _; eexists; split; try done.
Qed.

Lemma optional_str_member (members : list (string * json)) (k : string) :
  member_ok is_optional_str members k = true ->
  exists v o,
    py_get (JObj members) k JNull = Returns v /\ as_optional_str v = Returns o.
Proof.
  unfold member_ok. cbn. destruct (members_lookup members k) as [[]|]; cbn; try done;
    intros _; by eexists _, _.
Qed.

Lemma list_member (ok : json -> bool) (members : list (string * json)) (k : string) :
  member_ok (is_list_of ok) members k = true ->
  exists items,
    py_get (JObj members) k (JArr []) = Returns (JArr items) /\
    forallb ok items = true.
Proof.
  unfold member_ok. cbn. destruct (members_lookup members k) as [[]|]; cbn; try done;
    intros H; by eexists.
Qed.

Lemma data_member (data_ok : json -> bool) (members : list (string * json)) :
  data_ok (JObj []) = true ->
  member_ok data_ok members "data" = true ->
  exists data,
    py_get (JObj members) "data" (JObj []) = Returns data /\ data_ok data = true.
Proof.
  unfold member_ok. cbn. intros Hempty.
  destruct (members_lookup members "data"); cbn; intros H; by eexists.
Qed.

Lemma strings_of_items (items : list json) :
  forallb is_str items = true -> exists urls, items = JStr <$> urls.
Proof.
  induction items as [|v items IH]; [by exists []|]. cbn.
  intros [Hv Hitems]%andb_true_iff. destruct (IH Hitems) as [urls ->].
  destruct v; try done. by eexists (_ :: urls).
Qed.

(** The run of the loader on a folder of the documented shape: it reads
    the clock twice and may print; nothing else of the world changes. *)
Lemma load_candidate_from_folder_run (name : string) (f : folder) (w : World) :
  folder_ok f = true ->
  exists c out,
    load_candidate_from_folder name f w
    = (Returns c, with_ticks (S (S (ticks w))) (with_stdout out w)) /\
    folder_name c = name /\ id c = None /\
    is_Some (display_urls c) /\ is_Some (experience c) /\ is_Some (education c) /\
    is_Some (experience_text c) /\ is_Some (education_text c) /\
    starred c = false /\ notes c = None /\ viewed c = false /\ viewed_at c = None /\
    (has_full_name (basic_info_json f) = false ->
     full_name c = PyStr.replace "-" " " name) /\
    load_candidate_from_folder name
      (mkFolder (as_empty_mapping (basic_info_json f))
                (as_empty_mapping (personal_info_json f)) (cv_pdf f)) w
    = (Returns c, with_ticks (S (S (ticks w))) (with_stdout out w)).
Proof.
  unfold folder_ok. intros [Hbasic Hpersonal]%andb_true_iff.
  destruct (load_json_ok _ _ Hbasic) as (bm & Hb & Hb' & Hbe & Hbdata).
  destruct (load_json_ok _ _ Hpersonal) as (pm & Hp & Hp' & Hpe & Hpdata).
  destruct (data_member basic_data_ok bm eq_refl Hbdata) as (data & Hdata & Hdok).
  destruct (data_member personal_data_ok pm eq_refl Hpdata) as (pdata & Hpd & Hpdok).
  destruct data as [| | | | |dm]; try done.
  destruct pdata as [| | | | |pdm]; try done.
  cbn in Hdok, Hpdok.
  apply andb_true_iff in Hdok as [[[Hname Htitle]%andb_true_iff Hexp]%andb_true_iff Hedu].
  apply andb_true_iff in Hpdok as [[Hmail Hlinked]%andb_true_iff Hurls].
  destruct (str_member dm "fullName" (PyStr.replace "-" " " name) Hname)
    as (full & Hfull & Hfallback).
  destruct (optional_str_member dm "title" Htitle) as (tv & t & Htv & Ht).
  destruct (optional_str_member pdm "primaryEmail" Hmail) as (mv & m & Hmv & Hm).
  destruct (optional_str_member pdm "linkedinUrl" Hlinked) as (lv & l & Hlv & Hl).
  destruct (list_member _ dm "experience" Hexp) as (exps & Hexps & Hexps_ok).
  destruct (list_member _ dm "education" Hedu) as (edus & Hedus & Hedus_ok).
  destruct (list_member _ pdm "displayUrls" Hurls) as (items & Hitems & Hitems_ok).
  destruct (strings_of_items items Hitems_ok) as (urls & ->).
  destruct (extract_pdf_text_returns (name +:+ "/cv.pdf") (cv_pdf f) w)
    as (cv & out & Hcv).
  assert (Hrun : forall f', load_json (basic_info_json f') = Returns (JObj bm) ->
            load_json (personal_info_json f') = Returns (JObj pm) ->
            cv_pdf f' = cv_pdf f ->
            load_candidate_from_folder name f' w
            = (Returns (mkCandidate None name full t m l
                 (Some (Dumps (JArr (JStr <$> filter (fun u => ~ is_substring "arxiv.org" u) urls))))
                 (Some (Dumps (JArr exps))) (Some (Dumps (JArr edus)))
                 (Some (flattened (placed_text experience_keys) experience_keys exps))
                 (Some (flattened (placed_text education_keys) education_keys edus))
                 cv false None false None
                 (wall_clock w (ticks w)) (wall_clock w (S (ticks w)))),
               with_ticks (S (S (ticks w))) (with_stdout out w))).
  { intros f' Hb1 Hp1 Hcv1. unfold load_candidate_from_folder.
    rewrite Hb1, bind_lift, Hp1, bind_lift, Hdata, bind_lift, Hpd, bind_lift.
    rewrite Hfull, bind_lift, Htv, bind_lift, Hmv, bind_lift, Hlv, bind_lift.
    rewrite Hitems, bind_lift.
    unfold filter_urls. cbn [py_iter mbind outcome_bind].
    rewrite filter_urls_from_strings, bind_lift, Hexps, bind_lift, Hedus, bind_lift.
    unfold flatten_experience, flatten_education. cbn [py_iter mbind outcome_bind].
    rewrite (experience_parts_spec _ Hexps_ok), (education_parts_spec _ Hedus_ok).
    cbn [mbind outcome_bind]. rewrite !bind_lift.
    rewrite Hcv1, (bind_step _ _ _ _ _ Hcv).
    cbn [as_str]. rewrite bind_lift, Ht, bind_lift, Hm, bind_lift, Hl, bind_lift.
    reflexivity. }
  eexists _, _. split; [exact (Hrun f Hb Hp eq_refl)|]. cbn.
  repeat (split; [done|]). split.
  - intros Hnone. apply Hfallback. unfold has_full_name in Hnone.
    rewrite Hbe in Hnone. cbn in Hdata. injection Hdata as Hdata.
    rewrite Hdata in Hnone. apply bool_decide_eq_false in Hnone.
    destruct (members_lookup dm "fullName"); [|done]. by destruct Hnone.
  - exact (Hrun (mkFolder (as_empty_mapping (basic_info_json f))
                    (as_empty_mapping (personal_info_json f)) (cv_pdf f))
             Hb' Hp' eq_refl).
Qed.


(** C5 (amended). On a folder whose two JSON documents are each missing,
    unparseable, or of the documented shape, the loader returns one
    Candidate and does not raise: the candidate has the folder's name, no
    id yet, the review fields at their defaults and the serialized lists
    and flattened texts all present; the store is not touched; a missing
    or unparseable document is read as the empty mapping (the run is the
    run on the folder with [{}] in its place); and when the basic-info
    document gives no full name, [full_name] is the folder's name with
    ["-"] replaced by a space. *)
Theorem load_candidate_from_folder_total (name : string) (f : folder) (w : World) :
  folder_ok f = true ->
  exists c w',
    load_candidate_from_folder name f w = (Returns c, w') /\
    rows w' = rows w /\
    folder_name c = name /\ id c = None /\
    is_Some (display_urls c) /\ is_Some (experience c) /\ is_Some (education c) /\
    is_Some (experience_text c) /\ is_Some (education_text c) /\
    starred c = false /\ notes c = None /\ viewed c = false /\ viewed_at c = None /\
    (has_full_name (basic_info_json f) = false ->
     full_name c = PyStr.replace "-" " " name) /\
    load_candidate_from_folder name
      (mkFolder (as_empty_mapping (basic_info_json f))
                (as_empty_mapping (personal_info_json f)) (cv_pdf f)) w
    = (Returns c, w').
Proof.
  intros Hok.
  destruct (load_candidate_from_folder_run name f w Hok) as (c & out & Hload & Hrest).
  exists c. eexists. split; [exact Hload|]. split; [reflexivity|]. exact Hrest.
Qed.

Lemma load_candidate_from_folder_total_witness :
  folder_ok empty_folder = true /\
  has_full_name (basic_info_json empty_folder) = false /\
  exists c w',
    load_candidate_from_folder "Empty-Folder" empty_folder test_world = (Returns c, w') /\
    full_name c = "Empty Folder".
Proof.
  split; [reflexivity|]. split; [reflexivity|].
  destruct (load_candidate_from_folder_total "Empty-Folder" empty_folder test_world eq_refl)
    as (c & w' & Hload & _ & _ & _ & _ & _ & _ & _ & _ & _ & _ & _ & _ & Hname & _).
  exists c, w'. split; [exact Hload|]. exact (Hname eq_refl).
Defined.

(** C5, as stated, fails on a folder whose [basic_info.json] is the valid
    document [{"status": 404, "data": null}]: [load_json] returns the
    mapping, ["data"] is [None], and [data.get] raises [AttributeError]. *)
Lemma load_candidate_from_folder_raises_on_null_data :
  let f := mkFolder (Parsed (JObj [("status", JNum "404"); ("data", JNull)]))
                    (Unreadable FileNotFoundError) None in
  load_candidate_from_folder "Jane-Roe" f test_world = (Raises AttributeError, test_world) /\
  ~ exists c w', load_candidate_from_folder "Jane-Roe" f test_world = (Returns c, w').
Proof.
  split; [reflexivity|]. intros (c & w' & H). vm_compute in H. discriminate.
Qed.

(** ** Disk scan *)

Lemma known_app (t1 t2 : list Candidate) : known (t1 ++ t2) = known t1 ++ known t2.
Proof. unfold known. apply fmap_app. Qed.

Lemma existsb_has_folder_name (name : string) (table : list Candidate) :
  name ∉ known table -> existsb (has_folder_name name) table = false.
Proof.
  induction table as [|c table IH]; [done|]. cbn. intros Hnot.
  apply not_elem_of_cons in Hnot as [Hne Hnot]. rewrite (IH Hnot).
  unfold has_folder_name. by rewrite bool_decide_eq_false_2.
Qed.

Lemma find_has_folder_name (name : string) (table : list Candidate) :
  match find (has_folder_name name) table with
  | Some _ => name ∈ known table
  | None => name ∉ known table
  end.
Proof.
  induction table as [|c table IH]; cbn; [by apply not_elem_of_nil|].
  unfold has_folder_name at 1. case_bool_decide as Hc.
  - subst. apply elem_of_cons. by left.
  - destruct (find (has_folder_name name) table).
    + apply elem_of_cons. by right.
    + apply not_elem_of_cons. split; [congruence|done].
Qed.

(** The new objects of a session whose names are fresh are inserted. *)
Lemma insert_rows_fresh (committed new inserted : list Candidate) :
  NoDup (known new) ->
  (forall n, n ∈ known new -> n ∉ known (committed ++ inserted)) ->
  exists added,
    insert_rows committed new inserted = Returns (inserted ++ added) /\
    known added = known new.
Proof.
  revert inserted. induction new as [|c new IH]; intros inserted Hdup Hfresh.
  - exists []. by rewrite app_nil_r.
  - cbn in Hdup. apply NoDup_cons in Hdup as [Hc Hdup].
    cbn [insert_rows]. unfold insert_row.
    rewrite existsb_has_folder_name by (apply Hfresh; cbn; apply elem_of_cons; by left).
    cbn [mbind outcome_bind].
    destruct (IH (inserted ++ [with_id (next_id (committed ++ inserted)) c]) Hdup)
      as (added & Hins & Hnames).
    { intros n Hn. rewrite app_assoc, known_app. cbn.
      apply not_elem_of_app. split.
      - apply Hfresh. cbn. apply elem_of_cons. by right.
      - apply not_elem_of_cons. split; [|apply not_elem_of_nil].
        intros ->. done. }
    rewrite Hins. eexists (_ :: added). split.
    + by rewrite <- app_assoc.
    + unfold known in *. cbn. by rewrite Hnames.
Qed.

Lemma session_flush_ok (w : World) :
  pending_ok w ->
  exists added,
    session_flush w = (Returns tt, with_pending [] (with_flushed (flushed w ++ added) w)) /\
    known added = known (pending w).
Proof.
  intros [Hdup Hfresh]. unfold session_flush.
  destruct (insert_rows_fresh (rows w) (pending w) (flushed w) Hdup Hfresh)
    as (added & -> & Hnames).
  by exists added.
Qed.

Lemma filter_agree {A} (P Q : A -> Prop) `{!forall x, Decision (P x)}
    `{!forall x, Decision (Q x)} (l : list A) :
  (forall x, x ∈ l -> (P x <-> Q x)) -> filter P l = filter Q l.
Proof.
  induction l as [|x l IH]; [done|]. intros Hagree. rewrite !filter_cons.
  rewrite IH by (intros y Hy; apply Hagree; by apply elem_of_cons; right).
  destruct (decide (P x)) as [HP|HP], (decide (Q x)) as [HQ|HQ]; try done.
  - destruct HQ. apply Hagree; [apply elem_of_cons; by left|done].
  - destruct HP. apply Hagree; [apply elem_of_cons; by left|done].
Qed.

Lemma folder_names_in (listing : list (string * dir_entry)) (n : string) :
  n ∈ folder_names listing -> n ∈ listing.*1.
Proof.
  induction listing as [|[name [|f]] listing IH]; cbn; [done|..].
  - intros Hn. apply elem_of_cons. right. by apply IH.
  - intros [->|Hn]%elem_of_cons; apply elem_of_cons; [by left|right; by apply IH].
Qed.

Lemma scan_folders_spec (listing : list (string * dir_entry)) :
  forall (w : World) (l s : nat),
    NoDup listing.*1 ->
    Forall (fun e => entry_ok e.2 = true) listing ->
    pending_ok w ->
    exists w',
      scan_folders listing l s w
      = (Returns ((l + List.length (filter (.∉ all_known w) (folder_names listing)))%nat,
                  (s + List.length (filter (.∈ all_known w) (folder_names listing)))%nat),
         w') /\
      rows w' = rows w /\ disk w' = disk w /\
      _applicants_path w' = _applicants_path w /\
      pending_ok w' /\
      known (flushed w' ++ pending w')
      = known (flushed w ++ pending w)
        ++ filter (.∉ all_known w) (folder_names listing).
Proof.
  induction listing as [|[name [|f]] listing IH]; intros w l s Hdup Hok Hpend.
  - exists w. cbn. rewrite !Nat.add_0_r, app_nil_r. done.
  - cbn in Hdup. apply NoDup_cons in Hdup as [_ Hdup].
    apply Forall_cons in Hok as [_ Hok].
    exact (IH w l s Hdup Hok Hpend).
  - cbn in Hdup. apply NoDup_cons in Hdup as [Hname Hdup].
    apply Forall_cons in Hok as [Hf Hok]. cbn in Hf.
    destruct (session_flush_ok w Hpend) as (added & Hflush & Hadded).
    set (wa := with_pending [] (with_flushed (flushed w ++ added) w)) in *.
    assert (Hknown_a : known (rows wa ++ flushed wa) = all_known w).
    { unfold all_known.
      change (rows wa ++ flushed wa) with (rows w ++ flushed w ++ added).
      by rewrite !known_app, Hadded. }
    cbn [scan_folders]. unfold select_first_by_folder_name.
    rewrite (bind_step _ _ _ _ _ (bind_step _ _ _ _ _ Hflush)).
    pose proof (find_has_folder_name name (rows wa ++ flushed wa)) as Hfind.
    rewrite Hknown_a in Hfind.
    change (folder_names ((name, Directory f) :: listing))
      with (name :: folder_names listing).
    rewrite !filter_cons.
    destruct (find (has_folder_name name) (rows wa ++ flushed wa)) as [c|].
    + (* already loaded: skipped *)
      rewrite decide_False by (intros Hn; by apply Hn).
      rewrite decide_True by done.
      destruct (IH wa l (S s) Hdup Hok) as (w' & Hrun & Hrows & Hdisk & Hpath & Hp' & Hk).
      { split; cbn; [apply NoDup_nil_2|]. intros n Hn. by apply elem_of_nil in Hn. }
      assert (Hsame : all_known wa = all_known w).
      { unfold all_known.
        change (rows wa ++ flushed wa ++ pending wa) with (rows wa ++ flushed wa ++ []).
        rewrite app_nil_r. exact Hknown_a. }
      rewrite Hsame in Hrun, Hk.
      exists w'. split.
      { rewrite Hrun. cbn [List.length]. do 3 f_equal. lia. }
      repeat (split; [done|]).
      rewrite Hk.
      change (flushed wa ++ pending wa) with ((flushed w ++ added) ++ []).
      rewrite app_nil_r, !known_app, Hadded. done.
    + (* a new folder: loaded and staged *)
      rewrite decide_True by done.
      rewrite decide_False by done.
      destruct (load_candidate_from_folder_run name f wa Hf)
        as (c & out & Hload & Hcname & _).
      rewrite (bind_step _ _ _ _ _ Hload).
      set (wb := with_ticks (S (S (ticks wa))) (with_stdout out wa)) in *.
      unfold session_add. rewrite (bind_step _ _ _ tt (with_pending (pending wb ++ [c]) wb))
        by reflexivity.
      set (wc := with_pending (pending wb ++ [c]) wb) in *.
      assert (Hknown_c : all_known wc = all_known w ++ [name]).
      { unfold all_known.
        change (rows wc ++ flushed wc ++ pending wc)
          with (rows wa ++ flushed wa ++ [c]).
        rewrite app_assoc, known_app, Hknown_a.
        change (known [c]) with [folder_name c]. by rewrite Hcname. }
      destruct (IH wc (S l) s Hdup Hok) as (w' & Hrun & Hrows & Hdisk & Hpath & Hp' & Hk).
      { split.
        - change (known (pending wc)) with [folder_name c]. apply NoDup_singleton.
        - change (known (pending wc)) with [folder_name c]. rewrite Hcname.
          intros n Hn%list_elem_of_singleton. subst n.
          change (rows wc ++ flushed wc) with (rows wa ++ flushed wa).
          by rewrite Hknown_a. }
      assert (Hother : forall n, n ∈ folder_names listing -> n <> name)
        by (intros n Hn ->; by apply Hname, folder_names_in).
      assert (Hnew : filter (.∉ all_known wc) (folder_names listing)
                     = filter (.∉ all_known w) (folder_names listing)).
      { apply filter_agree. intros n Hn. specialize (Hother n Hn). rewrite Hknown_c.
        rewrite elem_of_app, list_elem_of_singleton. tauto. }
      assert (Hold : filter (.∈ all_known wc) (folder_names listing)
                     = filter (.∈ all_known w) (folder_names listing)).
      { apply filter_agree. intros n Hn. specialize (Hother n Hn). rewrite Hknown_c.
        rewrite elem_of_app, list_elem_of_singleton. tauto. }
      rewrite Hnew, Hold in Hrun. rewrite Hnew in Hk.
      exists w'. split.
      { rewrite Hrun. cbn [List.length]. do 3 f_equal. lia. }
      repeat (split; [done|]).
      rewrite Hk.
      change (flushed wc ++ pending wc) with ((flushed w ++ added) ++ [c]).
      rewrite !known_app, Hadded. change (known [c]) with [folder_name c].
      rewrite Hcname. by rewrite <- !app_assoc.
Qed.

Lemma sorted_iterdir_ok (entries : gmap string dir_entry) :
  map_Forall (fun _ e => entry_ok e = true) entries ->
  NoDup (sorted_iterdir entries).*1 /\
  Forall (fun e => entry_ok e.2 = true) (sorted_iterdir entries).
Proof.
  intros Hok. unfold sorted_iterdir.
  pose proof (merge_sort_Permutation name_le (map_to_list entries)) as Hperm.
  split.
  - rewrite Hperm. apply NoDup_fst_map_to_list.
  - rewrite Hperm. apply Forall_forall. intros [name e] Hin.
    apply elem_of_map_to_list in Hin. exact (Hok name e Hin).
Qed.

Lemma folder_names_NoDup (listing : list (string * dir_entry)) :
  NoDup listing.*1 -> NoDup (folder_names listing).
Proof.
  induction listing as [|[name [|f]] listing IH]; cbn; [done|..];
    intros [Hname Hdup]%NoDup_cons; [by apply IH|].
  apply NoDup_cons. split; [|by apply IH].
  intros Hn. by apply Hname, folder_names_in.
Qed.

Lemma filter_split_length {A} (P : A -> Prop) `{!forall x, Decision (P x)} (l : list A) :
  (List.length (filter (fun x => ~ P x) l) + List.length (filter P l)
   = List.length l)%nat.
Proof.
  induction l as [|x l IH]; [done|]. rewrite !filter_cons.
  destruct (decide (P x)); [rewrite decide_False by tauto|rewrite decide_True by done];
    cbn [List.length]; lia.
Qed.

Lemma filter_all {A} (P : A -> Prop) `{!forall x, Decision (P x)} (l : list A) :
  Forall P l -> filter P l = l.
Proof.
  induction 1 as [|x l Hx Hl IH]; [done|].
  by rewrite filter_cons, decide_True, IH.
Qed.

Lemma filter_none {A} (P : A -> Prop) `{!forall x, Decision (P x)} (l : list A) :
  Forall (fun x => ~ P x) l -> filter P l = [].
Proof.
  induction 1 as [|x l Hx Hl IH]; [done|].
  by rewrite filter_cons, decide_False, IH.
Qed.

(** One scan from a fresh session, on a directory whose folders the
    loader accepts. *)
Lemma load_candidates_from_disk_run (applicants_path : option string) (w : World)
    (entries : gmap string dir_entry) :
  disk w (default (_applicants_path w) applicants_path) = ApplicantsDir entries ->
  pending w = [] -> flushed w = [] ->
  map_Forall (fun _ e => entry_ok e = true) entries ->
  exists w' added,
    load_candidates_from_disk applicants_path w = (Returns tt, w') /\
    rows w' = rows w ++ added /\
    known added = filter (.∉ known (rows w)) (applicant_folders entries) /\
    last (stdout w')
    = Some (LogLoaded
              (List.length (filter (.∉ known (rows w)) (applicant_folders entries)))
              (List.length (filter (.∈ known (rows w)) (applicant_folders entries)))) /\
    disk w' = disk w /\ _applicants_path w' = _applicants_path w /\
    pending w' = [] /\ flushed w' = [].
Proof.
  intros Hdisk Hpending Hflushed Hok.
  destruct (sorted_iterdir_ok entries Hok) as [Hdup Hentries].
  assert (Hfresh : pending_ok w).
  { split; rewrite Hpending; [apply NoDup_nil_2|].
    intros n Hn. by apply elem_of_nil in Hn. }
  assert (Hknown : all_known w = known (rows w)).
  { unfold all_known. by rewrite Hpending, Hflushed, !app_nil_r. }
  destruct (scan_folders_spec (sorted_iterdir entries) w 0 0 Hdup Hentries Hfresh)
    as (w1 & Hscan & Hrows & Hdisk1 & Hpath & Hpend1 & Hstaged).
  rewrite Hknown, Hpending, Hflushed in Hstaged. cbn [app] in Hstaged.
  rewrite Hknown in Hscan. cbn [Nat.add] in Hscan. fold (applicant_folders entries) in *.
  destruct (session_flush_ok w1 Hpend1) as (added & Hflush & Hadded).
  exists (with_stdout
            (stdout w1 ++
             [LogLoaded
                (List.length (filter (.∉ known (rows w)) (applicant_folders entries)))
                (List.length (filter (.∈ known (rows w)) (applicant_folders entries)))])
            (with_flushed []
               (with_rows (rows w1 ++ (flushed w1 ++ added))
                  (with_pending [] (with_flushed (flushed w1 ++ added) w1))))),
         (flushed w1 ++ added).
  split.
  { unfold load_candidates_from_disk.
    assert (Hfirst : forall k : string -> M unit,
              (match applicants_path with
               | Some p => mret p
               | None => get_applicants_path
               end ≫= k) w
              = k (default (_applicants_path w) applicants_path) w)
      by (intros k; by destruct applicants_path).
    rewrite Hfirst. unfold gets at 1.
    rewrite (bind_step _ _ _ (disk w (default (_applicants_path w) applicants_path)) w)
      by reflexivity.
    rewrite Hdisk. rewrite (bind_step _ _ _ _ _ Hscan).
    unfold session_commit.
    rewrite (bind_step _ _ w1 tt
               (with_flushed []
                  (with_rows (rows w1 ++ (flushed w1 ++ added))
                     (with_pending [] (with_flushed (flushed w1 ++ added) w1)))))
      by (by rewrite (bind_step _ _ _ _ _ Hflush)).
    reflexivity. }
  split; [cbn; by rewrite Hrows|].
  split; [by rewrite known_app, Hadded, <- known_app|].
  split; [cbn; apply last_snoc|].
  done.
Qed.

Lemma folder_names_sorted (listing : list (string * dir_entry)) :
  StronglySorted name_le listing -> StronglySorted String.le (folder_names listing).
Proof.
  induction 1 as [|[name e] listing Hsorted IH Hall]; [constructor|].
  destruct e as [|f]; [exact IH|].
  change (folder_names ((name, Directory f) :: listing)) with (name :: folder_names listing).
  constructor; [exact IH|].
  apply Forall_forall. intros n Hn.
  clear IH Hsorted. induction listing as [|[name' [|f']] listing IH'].
  - by apply elem_of_nil in Hn.
  - apply Forall_cons in Hall as [_ Hall]. by apply IH'.
  - apply Forall_cons in Hall as [Hle Hall].
    change (folder_names ((name', Directory f') :: listing))
      with (name' :: folder_names listing) in Hn.
    apply elem_of_cons in Hn as [->|Hn]; [exact Hle|by apply IH'].
Qed.

#[global] Instance name_le_trans : Transitive name_le.
Proof. intros a b c. unfold name_le. apply transitivity. Qed.

#[global] Instance name_le_total : Total name_le.
Proof. intros a b. unfold name_le. apply total, _. Qed.

Lemma applicant_folders_sorted (entries : gmap string dir_entry) :
  StronglySorted String.le (applicant_folders entries).
Proof. apply folder_names_sorted, StronglySorted_merge_sort; apply _. Qed.

Lemma applicant_folders_elem (entries : gmap string dir_entry) (n : string) :
  n ∈ applicant_folders entries <-> exists f, entries !! n = Some (Directory f).
Proof.
  unfold applicant_folders, folder_names. rewrite list_elem_of_omap. split.
  - intros ([name [|f]] & Hin & Hn); [done|]. injection Hn as ->.
    unfold sorted_iterdir in Hin. rewrite merge_sort_Permutation in Hin.
    apply elem_of_map_to_list in Hin. by exists f.
  - intros [f Hf]. exists (n, Directory f). split; [|done].
    unfold sorted_iterdir. rewrite merge_sort_Permutation.
    by apply elem_of_map_to_list.
Qed.

Lemma StronglySorted_filter {A} (R : relation A) (P : A -> Prop)
    `{!forall x, Decision (P x)} (l : list A) :
  StronglySorted R l -> StronglySorted R (filter P l).
Proof.
  induction 1 as [|x l Hsorted IH Hall]; [constructor|].
  rewrite filter_cons. destruct (decide (P x)); [|exact IH].
  constructor; [exact IH|]. apply Forall_forall. intros y Hy.
  apply list_elem_of_filter in Hy as [_ Hy].
  revert y Hy. by apply Forall_forall.
Qed.

(** One scan of the applicants directory.  From a fresh session, on a
    directory whose folders the loader accepts, [load_candidates_from_disk]
    returns; it appends to the table one row for each subdirectory whose
    name the table does not hold yet, in ascending order of the names and
    no name twice, and leaves the rows that were there as they are;
    regular files are passed over.  The line it prints gives the number
    of folders loaded and the number skipped, which add up to the number
    of subdirectories.  The session is left with nothing pending. *)
Theorem load_candidates_from_disk_loads_unknown_folders
    (applicants_path : option string) (w : World) (entries : gmap string dir_entry) :
  disk w (default (_applicants_path w) applicants_path) = ApplicantsDir entries ->
  pending w = [] -> flushed w = [] ->
  map_Forall (fun _ e => entry_ok e = true) entries ->
  exists w' added,
    load_candidates_from_disk applicants_path w = (Returns tt, w') /\
    rows w' = rows w ++ added /\
    known added = filter (.∉ known (rows w)) (applicant_folders entries) /\
    (forall n, n ∈ known added <->
               (exists f, entries !! n = Some (Directory f)) /\ n ∉ known (rows w)) /\
    NoDup (known added) /\
    StronglySorted String.le (known added) /\
    last (stdout w')
    = Some (LogLoaded
              (List.length (filter (.∉ known (rows w)) (applicant_folders entries)))
              (List.length (filter (.∈ known (rows w)) (applicant_folders entries)))) /\
    (List.length (filter (.∉ known (rows w)) (applicant_folders entries))
     + List.length (filter (.∈ known (rows w)) (applicant_folders entries))
     = List.length (applicant_folders entries))%nat /\
    pending w' = [] /\ flushed w' = [].
Proof.
  intros Hdisk Hpending Hflushed Hok.
  destruct (load_candidates_from_disk_run applicants_path w entries
              Hdisk Hpending Hflushed Hok)
    as (w' & added & Hrun & Hrows & Hadded & Hlog & _ & _ & Hpend & Hflush).
  exists w', added. repeat (split; [done|]). split.
  { intros n. rewrite Hadded, list_elem_of_filter, applicant_folders_elem. tauto. }
  split.
  { rewrite Hadded. apply NoDup_filter, folder_names_NoDup.
    by apply sorted_iterdir_ok. }
  split.
  { rewrite Hadded. apply StronglySorted_filter, applicant_folders_sorted. }
  split; [done|]. split; [apply filter_split_length|done].
Qed.

Lemma load_candidates_from_disk_loads_unknown_folders_witness :
  exists w' added,
    load_candidates_from_disk None rescan_world = (Returns tt, w') /\
    rows w' = rows rescan_world ++ added /\
    known added = ["Empty-Folder"] /\
    last (stdout w') = Some (LogLoaded 1 1).
Proof.
  assert (Hok : map_Forall (fun _ e => entry_ok e = true) test_entries).
  { unfold test_entries.
    repeat (apply map_Forall_insert_2; [reflexivity|]).
    apply map_Forall_empty. }
  assert (Hnew : filter (.∉ known (rows rescan_world)) (applicant_folders test_entries)
                 = ["Empty-Folder"]) by (vm_compute; reflexivity).
  assert (Hold : filter (.∈ known (rows rescan_world)) (applicant_folders test_entries)
                 = ["Test-Candidate"]) by (vm_compute; reflexivity).
  destruct (load_candidates_from_disk_loads_unknown_folders None rescan_world test_entries
              eq_refl eq_refl eq_refl Hok)
    as (w' & added & Hrun & Hrows & Hadded & _ & _ & _ & Hlog & _).
  rewrite Hnew, Hold in Hlog. rewrite Hnew in Hadded.
  exists w', added. split; [exact Hrun|]. split; [exact Hrows|].
  split; [exact Hadded|exact Hlog].
Defined.

(** Scanning twice.  After one scan of a directory whose folders the
    loader accepts, a second scan of the unchanged directory returns,
    loads nothing, skips every subdirectory, and leaves the table as the
    first scan left it. *)
Theorem load_candidates_from_disk_twice
    (applicants_path : option string) (w : World) (entries : gmap string dir_entry) :
  disk w (default (_applicants_path w) applicants_path) = ApplicantsDir entries ->
  pending w = [] -> flushed w = [] ->
  map_Forall (fun _ e => entry_ok e = true) entries ->
  exists w1 w2,
    load_candidates_from_disk applicants_path w = (Returns tt, w1) /\
    load_candidates_from_disk applicants_path w1 = (Returns tt, w2) /\
    last (stdout w2) = Some (LogLoaded 0 (List.length (applicant_folders entries))) /\
    rows w2 = rows w1.
Proof.
  intros Hdisk Hpending Hflushed Hok.
  destruct (load_candidates_from_disk_run applicants_path w entries
              Hdisk Hpending Hflushed Hok)
    as (w1 & added & Hrun1 & Hrows1 & Hadded & Hlog1 & Hdisk1 & Hpath1 & Hpend1 & Hflush1).
  assert (Hdisk' : disk w1 (default (_applicants_path w1) applicants_path)
                   = ApplicantsDir entries) by (by rewrite Hdisk1, Hpath1).
  destruct (load_candidates_from_disk_run applicants_path w1 entries
              Hdisk' Hpend1 Hflush1 Hok)
    as (w2 & added2 & Hrun2 & Hrows2 & Hadded2 & Hlog2 & _).
  assert (Hall : Forall (.∈ known (rows w1)) (applicant_folders entries)).
  { apply Forall_forall. intros n Hn. rewrite Hrows1, known_app, Hadded.
    apply elem_of_app. destruct (decide (n ∈ known (rows w))) as [|Hnew]; [by left|].
    right. by apply list_elem_of_filter. }
  rewrite (filter_all _ _ Hall) in Hlog2.
  rewrite (filter_none (.∉ known (rows w1))) in Hlog2, Hadded2
    by (eapply Forall_impl; [exact Hall|]; cbn; tauto).
  apply fmap_nil_inv in Hadded2. subst added2. rewrite app_nil_r in Hrows2.
  by exists w1, w2.
Qed.

Lemma load_candidates_from_disk_twice_witness :
  exists w1 w2,
    load_candidates_from_disk None test_world = (Returns tt, w1) /\
    load_candidates_from_disk None w1 = (Returns tt, w2) /\
    last (stdout w2) = Some (LogLoaded 0 2) /\
    rows w2 = rows w1.
Proof.
  assert (Hok : map_Forall (fun _ e => entry_ok e = true) test_entries).
  { unfold test_entries.
    repeat (apply map_Forall_insert_2; [reflexivity|]).
    apply map_Forall_empty. }
  assert (Hall : applicant_folders test_entries = ["Empty-Folder"; "Test-Candidate"])
    by (vm_compute; reflexivity).
  destruct (load_candidates_from_disk_twice None test_world test_entries
              eq_refl eq_refl eq_refl Hok)
    as (w1 & w2 & Hrun1 & Hrun2 & Hlog2 & Hrows2).
  rewrite Hall in Hlog2.
  exists w1, w2. split; [exact Hrun1|]. split; [exact Hrun2|].
  split; [exact Hlog2|exact Hrows2].
Defined.

(** ** What a run leaves as it is *)

Section Preserved.

Context (R : relation World) `{!PreOrder R}.

Lemma preserved_bind {A B} (m : M A) (k : A -> M B) :
  preserved R m -> (forall a, preserved R (k a)) -> preserved R (m ≫= k).
Proof.
  intros Hm Hk w. specialize (Hm w). unfold mbind, M_bind.
  destruct (m w) as [[a|e|] w1]; cbn in *; [|done..].
  etrans; [exact Hm|apply Hk].
Qed.

Lemma preserved_ret {A} (a : A) : preserved R (mret a : M A).
Proof. intros w. cbn. reflexivity. Qed.

Lemma preserved_lift {A} (o : outcome A) : preserved R (lift o).
Proof. intros w. cbn. reflexivity. Qed.

Lemma preserved_gets {A} (f : World -> A) : preserved R (gets f).
Proof. intros w. cbn. reflexivity. Qed.

Lemma preserved_modify (f : World -> World) :
  (forall w, R w (f w)) -> preserved R (modify f).
Proof. intros Hf w. apply Hf. Qed.

Lemma preserved_try_except {A} (body : M A) (handler : exn -> M A) :
  preserved R body -> (forall e, preserved R (handler e)) ->
  preserved R (try_except body handler).
Proof.
  intros Hbody Hhandler w. specialize (Hbody w). unfold try_except.
  destruct (body w) as [[a|e|] w1]; cbn in *; [done| |done].
  etrans; [exact Hbody|apply Hhandler].
Qed.

Lemma preserved_try_finally {A} (body : M A) (final : M unit) :
  preserved R body -> preserved R final -> preserved R (try_finally body final).
Proof.
  intros Hbody Hfinal w. specialize (Hbody w). unfold try_finally.
  destruct (body w) as [r w1]. specialize (Hfinal w1).
  destruct (final w1) as [[[]|e|] w2]; cbn in *; by etrans.
Qed.

End Preserved.

Ltac preserved_step :=
  first
    [ apply preserved_ret; apply _
    | apply preserved_lift; apply _
    | apply preserved_gets; apply _
    | apply preserved_bind; [apply _| |intros ?] ].

Section Unobserving.

Context (R : relation World) `{!Unobserving R}.

Lemma utc_now_preserved : preserved R utc_now.
Proof.
  unfold utc_now. repeat preserved_step.
  apply preserved_modify. intros w. apply unobserving_ticks.
Qed.

Lemma print_preserved (l : log_line) : preserved R (print l).
Proof. apply preserved_modify. intros w. apply unobserving_stdout. Qed.

Lemma extract_pdf_text_preserved (pdf_path : string) (cv : option pdf) :
  preserved R (extract_pdf_text pdf_path cv).
Proof.
  unfold extract_pdf_text, get_world.
  apply preserved_bind; [apply _|intros w; cbn; reflexivity|intros w].
  destruct (negb (HAS_PYMUPDF w)); [preserved_step|].
  destruct cv as [file|]; [|preserved_step].
  apply preserved_try_except; [apply _| |intros e].
  - repeat preserved_step.
  - apply preserved_bind; [apply _|apply print_preserved|intros ?]. preserved_step.
Qed.

Lemma load_candidate_from_folder_preserved (name : string) (f : folder) :
  preserved R (load_candidate_from_folder name f).
Proof.
  unfold load_candidate_from_folder.
  repeat first [ apply extract_pdf_text_preserved | apply utc_now_preserved
               | preserved_step ].
Qed.

End Unobserving.

Section SessionBlind.

Context (R : relation World) `{!SessionBlind R}.

Lemma session_flush_preserved : preserved R session_flush.
Proof.
  intros w. unfold session_flush.
  destruct (insert_rows (rows w) (pending w) (flushed w)) as [f|e|]; cbn;
    [|reflexivity..].
  etrans; [apply (session_blind_flushed f)|apply session_blind_pending].
Qed.

Lemma session_close_preserved : preserved R session_close.
Proof.
  apply preserved_modify. intros w.
  etrans; [apply (session_blind_flushed [])|apply session_blind_pending].
Qed.

Lemma scan_folders_preserved (entries : list (string * dir_entry)) (l s : nat) :
  preserved R (scan_folders entries l s).
Proof.
  revert l s. induction entries as [|[name [|f]] entries IH]; intros l s; cbn [scan_folders].
  - preserved_step.
  - apply IH.
  - unfold select_first_by_folder_name.
    apply preserved_bind; [apply _| |intros [c|]].
    + apply preserved_bind; [apply _|apply session_flush_preserved|intros ?].
      preserved_step.
    + apply IH.
    + apply preserved_bind;
        [apply _|apply (load_candidate_from_folder_preserved R)|intros ?].
      apply preserved_bind; [apply _| |intros ?; apply IH].
      unfold session_add. apply preserved_modify. intros w. apply session_blind_pending.
Qed.

End SessionBlind.

#[global] Instance same_rows_unobserving : Unobserving same_rows.
Proof.
  split; [split|..]; unfold same_rows; try done.
  intros w1 w2 w3. congruence.
Qed.

#[global] Instance same_rows_session_blind : SessionBlind same_rows.
Proof. split; [apply _|done..]. Qed.

#[global] Instance same_setting_unobserving : Unobserving same_setting.
Proof.
  split; [split|..]; unfold same_setting; try done.
  intros w1 w2 w3 (? & ? & ? & ?) (? & ? & ? & ?). repeat split; congruence.
Qed.

#[global] Instance same_setting_session_blind : SessionBlind same_setting.
Proof. split; [apply _|done..]. Qed.

#[global] Instance same_session_unobserving : Unobserving same_session.
Proof.
  split; [split|..]; unfold same_session; try done.
  intros w1 w2 w3 (? & ? & ?) (? & ? & ?). repeat split; congruence.
Qed.

Lemma load_candidates_from_disk_rows (applicants_path : option string)
    (w w' : World) (o : outcome unit) :
  load_candidates_from_disk applicants_path w = (o, w') ->
  exists added, rows w' = rows w ++ added /\ (o <> Returns tt -> added = []).
Proof.
  assert (Hnone : forall w1 : World, rows w1 = rows w ->
            exists added, rows w1 = rows w ++ added /\ (o <> Returns tt -> added = [])).
  { intros w1 Hw1. exists []. by rewrite app_nil_r. }
  unfold load_candidates_from_disk.
  set (path := default (_applicants_path w) applicants_path).
  assert (Hfirst : forall k : string -> M unit,
            (match applicants_path with
             | Some p => mret p
             | None => get_applicants_path
             end ≫= k) w = k path w)
    by (intros k; by destruct applicants_path).
  rewrite Hfirst. unfold gets at 1.
  rewrite (bind_step _ _ _ (disk w path) w) by reflexivity.
  destruct (disk w path) as [| |entries].
  - intros [= <- <-]. by apply Hnone.
  - intros [= <- <-]. by apply Hnone.
  - pose proof (scan_folders_preserved same_rows (sorted_iterdir entries) 0 0 w) as Hrows.
    unfold mbind at 1, M_bind at 1.
    destruct (scan_folders (sorted_iterdir entries) 0 0 w) as [[counts|e|] w1];
      cbn in Hrows; try (intros [= <- <-]; by apply Hnone).
    unfold session_commit, session_flush, mbind, M_bind, modify, print. cbn.
    destruct (insert_rows (rows w1) (pending w1) (flushed w1)) as [inserted|e|];
      cbn; try (intros [= <- <-]; by apply Hnone).
    intros [= <- <-]. exists inserted. cbn. rewrite Hrows. split; [done|].
    by destruct 1.
Qed.

Lemma load_candidates_from_disk_same_setting (applicants_path : option string) :
  preserved same_setting (load_candidates_from_disk applicants_path).
Proof.
  unfold load_candidates_from_disk.
  apply preserved_bind; [apply _|destruct applicants_path; preserved_step|intros path].
  apply preserved_bind; [apply _|preserved_step|intros [| |entries]].
  - apply print_preserved, _.
  - apply preserved_lift, _.
  - apply preserved_bind; [apply _|apply scan_folders_preserved, _|intros counts].
    apply preserved_bind; [apply _| |intros ?; apply print_preserved, _].
    unfold session_commit.
    apply preserved_bind; [apply _|apply session_flush_preserved, _|intros ?].
    apply preserved_modify. by intros w.
Qed.

(** What one scan leaves in the table, whatever the directory holds and
    however the scan ends: the rows that were there, as they were and in
    their order, followed by rows it added.  When the scan does not
    return normally (a document of a folder cannot be read, a value has
    an unexpected type, the root is not a directory, an insert fails), it
    has added none: the folders loaded before the failure are not
    committed. *)
Theorem load_candidates_from_disk_commits_all_or_nothing
    (applicants_path : option string) (w : World) :
  exists added,
    rows (load_candidates_from_disk applicants_path w).2 = rows w ++ added /\
    ((load_candidates_from_disk applicants_path w).1 <> Returns tt -> added = []).
Proof.
  destruct (load_candidates_from_disk applicants_path w) as [o w'] eqn:Hrun.
  exact (load_candidates_from_disk_rows applicants_path w w' o Hrun).
Qed.

(** The start-up.  [lifespan] scans the directory [APPLICANTS_PATH] names
    when the variable is set and not empty, and the configured directory
    otherwise; the path it scans is the configured one from then on.
    However the scan ends, the session is closed with nothing left in it,
    the rows the table held are still there, and a scan that failed has
    added none. *)
Theorem lifespan_scans_and_closes (APPLICANTS_PATH : option string) (w : World) :
  let path := match APPLICANTS_PATH with
              | Some p => if PyStr.is_empty p then _applicants_path w else p
              | None => _applicants_path w
              end in
  let w0 := match APPLICANTS_PATH with
            | Some p => if PyStr.is_empty p then w
                        else with_stdout (stdout w ++ [LogPathSet p])
                               (with_applicants_path p w)
            | None => w
            end in
  (lifespan APPLICANTS_PATH w).1 = (load_candidates_from_disk (Some path) w0).1 /\
  _applicants_path (lifespan APPLICANTS_PATH w).2 = path /\
  pending (lifespan APPLICANTS_PATH w).2 = [] /\
  flushed (lifespan APPLICANTS_PATH w).2 = [] /\
  exists added,
    rows (lifespan APPLICANTS_PATH w).2 = rows w ++ added /\
    ((lifespan APPLICANTS_PATH w).1 <> Returns tt -> added = []).
Proof.
  intros path w0.
  assert (Hstart : lifespan APPLICANTS_PATH w
                   = try_finally (load_candidates_from_disk None) session_close w0).
  { unfold lifespan, w0. destruct APPLICANTS_PATH as [p|]; [|reflexivity].
    destruct (PyStr.is_empty p); reflexivity. }
  assert (Hpath : _applicants_path w0 = path).
  { unfold w0, path. destruct APPLICANTS_PATH as [p|]; [|reflexivity].
    destruct (PyStr.is_empty p); reflexivity. }
  assert (Hrows0 : rows w0 = rows w).
  { unfold w0. destruct APPLICANTS_PATH as [p|]; [|reflexivity].
    destruct (PyStr.is_empty p); reflexivity. }
  assert (Hsame : load_candidates_from_disk None w0
                  = load_candidates_from_disk (Some path) w0).
  { unfold load_candidates_from_disk, get_applicants_path, gets, mbind at 1 4, M_bind.
    cbn. by rewrite Hpath. }
  rewrite Hstart. unfold try_finally, session_close, modify. rewrite Hsame.
  pose proof (load_candidates_from_disk_same_setting (Some path) w0) as (Hp & _).
  destruct (load_candidates_from_disk (Some path) w0) as [o w1] eqn:Hrun.
  cbn in Hp |- *. split; [done|]. split; [by rewrite Hp|].
  split; [done|]. split; [done|].
  rewrite <- Hrows0. exact (load_candidates_from_disk_rows _ _ _ _ Hrun).
Qed.

(** ** Requests on a candidate the table does not hold *)



(** ** Saving a row under a primary key *)

Lemma find_split (cid : Z) (c : Candidate) (table : list Candidate) :
  find (has_id cid) table = Some c ->
  exists before after,
    table = before ++ c :: after /\ Forall (fun r => id r <> Some cid) before.
Proof.
  induction table as [|r table IH]; [done|]. cbn [find].
  unfold has_id at 1. case_bool_decide as Hr.
  - intros [= <-]. by exists [], table.
  - intros (before & after & -> & Hbefore)%IH.
    exists (r :: before), after. split; [done|]. by constructor.
Qed.

Lemma save_unique (cid : Z) (c c' : Candidate) (table : list Candidate) :
  NoDup (id <$> table) ->
  find (has_id cid) table = Some c ->
  exists before after,
    table = before ++ c :: after /\
    map (fun r => if bool_decide (id r = id c) then c' else r) table
    = before ++ c' :: after.
Proof.
  intros Hdup Hfind.
  pose proof (find_has_id _ _ _ Hfind) as Hc.
  destruct (find_split _ _ _ Hfind) as (before & after & -> & Hbefore).
  exists before, after. split; [done|].
  rewrite fmap_app, fmap_cons in Hdup.
  apply NoDup_app in Hdup as (_ & _ & [Hafter _]%NoDup_cons).
  rewrite map_app. cbn [map]. rewrite bool_decide_eq_true_2 by done.
  f_equal; [|f_equal].
  - clear -Hbefore Hc. induction Hbefore as [|r before Hr _ IH]; [done|].
    cbn [map]. rewrite IH, bool_decide_eq_false_2; [done|congruence].
  - clear -Hafter. induction after as [|r after IH]; [done|].
    cbn [map]. rewrite fmap_cons in Hafter.
    apply not_elem_of_cons in Hafter as [Hr Hafter].
    rewrite IH, bool_decide_eq_false_2; [done|congruence|done].
Qed.

#[global] Instance same_profile_refl : Reflexive same_profile.
Proof. intros c. by repeat split. Qed.

#[global] Instance same_profile_trans : Transitive same_profile.
Proof. intros c1 c2 c3 H12 H23. unfold same_profile in *. intuition congruence. Qed.

Lemma same_profile_ids (t t' : list Candidate) :
  Forall2 same_profile t t' -> id <$> t' = id <$> t.
Proof.
  induction 1 as [|c c' t t' Hc _ IH]; [done|]. cbn. rewrite IH. f_equal. apply Hc.
Qed.

Lemma Forall2_same_profile_refl (t : list Candidate) : Forall2 same_profile t t.
Proof. reflexivity. Qed.

Lemma Forall2_same_profile_saved (before after : list Candidate) (c c' : Candidate) :
  same_profile c c' ->
  Forall2 same_profile (before ++ c :: after) (before ++ c' :: after).
Proof.
  intros Hc. apply Forall2_app; [apply Forall2_same_profile_refl|].
  constructor; [done|apply Forall2_same_profile_refl].
Qed.

(** One request, on a table with a primary key. *)
Lemma run_op_same_profile (op : api_op) (w : World) :
  NoDup (id <$> rows w) ->
  Forall2 same_profile (rows w) (rows (run_op op w).2).
Proof.
  intros Hdup. destruct op as [cid|cid update]; cbn [run_op].
  - run_handler. destruct (find (has_id cid) (rows w)) as [c|] eqn:Hfind;
      [|apply Forall2_same_profile_refl].
    pose proof (find_has_id _ _ _ Hfind) as Hid.
    destruct (viewed c); cbn; [apply Forall2_same_profile_refl|].
    match goal with
    | |- context [map (fun r => if bool_decide (id r = id c) then ?x else r) _] =>
        destruct (save_unique cid c x (rows w) Hdup Hfind)
          as (before & after & Hrows & ->)
    end.
    rewrite Hrows. by apply Forall2_same_profile_saved.
  - run_handler. destruct (find (has_id cid) (rows w)) as [c|] eqn:Hfind;
      [|apply Forall2_same_profile_refl].
    pose proof (find_has_id _ _ _ Hfind) as Hid.
    destruct update as [[b|] [n|] [[|]|]]; cbn;
      try destruct (viewed_at c) as [t|] eqn:Ht; cbn;
      match goal with
      | |- context [map (fun r => if bool_decide (id r = id c) then ?x else r) _] =>
          destruct (save_unique cid c x (rows w) Hdup Hfind)
            as (before & after & Hrows & ->)
      end;
      rewrite Hrows; by apply Forall2_same_profile_saved.
Qed.

(** The review requests leave the profiles alone.  On a table in which
    no two rows have the same id, after any sequence of retrieve and
    update requests, failed ones included, the table holds the same rows
    in the same order, each with the id, the folder name, the name, the
    title, the contact fields, the serialized lists, the flattened texts,
    the CV text and the creation time it had: no request adds, removes or
    reorders rows or changes anything but the review fields. *)
Theorem review_requests_keep_profiles (ops : list api_op) (w : World) :
  NoDup (id <$> rows w) ->
  Forall2 same_profile (rows w) (rows (run_ops ops w)).
Proof.
  revert w. induction ops as [|op ops IH]; intros w Hdup; cbn [run_ops].
  - apply Forall2_same_profile_refl.
  - pose proof (run_op_same_profile op w Hdup) as Hstep.
    etrans; [exact Hstep|].
    apply IH. by rewrite (same_profile_ids _ _ Hstep).
Qed.

Lemma review_requests_keep_profiles_witness :
  NoDup (id <$> rows sample_world) /\
  Forall2 same_profile (rows sample_world)
    (rows (run_ops [GetCandidate 1;
                    UpdateCandidate 1 (mkCandidateUpdate (Some true) (Some "Great") None);
                    UpdateCandidate 99999 (mkCandidateUpdate (Some true) None None)]
             sample_world)).
Proof.
  assert (Hdup : NoDup (id <$> rows sample_world)).
  { cbn. apply NoDup_singleton. }
  split; [exact Hdup|].
  apply (review_requests_keep_profiles _ sample_world Hdup).
Defined.
(** ** Update requests *)

(** What an update request stores.  On a stored candidate the request
    returns and stores the candidate with [starred], [notes] and [viewed]
    set to the values the request gives and left as they were where it
    gives none (so that no request resets [notes] to null); [viewed_at]
    is stamped with the reading of the clock exactly when the request
    sets [viewed] to true and [viewed_at] is not set, and is left as it
    was otherwise; [updated_at] is the next reading of the clock. *)
Theorem update_candidate_sets_review_fields (w : World) (cid : Z)
    (update : CandidateUpdate) (c : Candidate) :
  find (has_id cid) (rows w) = Some c ->
  exists c' w',
    update_candidate cid update w = (Returns (updated c'), w') /\
    find (has_id cid) (rows w') = Some c' /\
    starred c' = default (starred c) (upd_starred update) /\
    notes c' = match upd_notes update with Some n => Some n | None => notes c end /\
    viewed c' = default (viewed c) (upd_viewed update) /\
    viewed_at c' = (if stamps update c then Some (wall_clock w (ticks w)) else viewed_at c) /\
    updated_at c' = wall_clock w (if stamps update c then S (ticks w) else ticks w) /\
    ticks w' = S (if stamps update c then S (ticks w) else ticks w).
Proof.
  intros Hfind. pose proof (find_has_id _ _ _ Hfind) as Hid.
  unfold stamps. run_handler. rewrite Hfind. cbn.
  destruct update as [[b|] [n|] [[|]|]]; cbn;
    try destruct (viewed_at c) as [t|] eqn:Ht; cbn;
    (eexists _, _; split; [reflexivity|]; split; [|done];
     match goal with
     | |- find _ _ = Some ?x => exact (find_after_save cid c x (rows w) Hfind Hid)
     end).
Qed.

Lemma update_candidate_sets_review_fields_witness :
  exists c' w',
    update_candidate 1 (mkCandidateUpdate None (Some "") (Some true)) sample_world
    = (Returns (updated c'), w') /\
    starred c' = false /\ notes c' = Some "" /\ viewed c' = true /\
    viewed_at c' = Some 1000 /\ updated_at c' = 1001.
Proof.
  destruct (update_candidate_sets_review_fields sample_world 1
              (mkCandidateUpdate None (Some "") (Some true)) sample_candidate eq_refl)
    as (c' & w' & Hrun & _ & Hstarred & Hnotes & Hviewed & Hat & Hupdated & _).
  exists c', w'. split; [exact Hrun|]. split; [exact Hstarred|].
  split; [exact Hnotes|]. split; [exact Hviewed|]. split; [exact Hat|exact Hupdated].
Defined.

(** ** Statistics *)

Lemma sum_ones_length (p : Candidate -> bool) (l : list Candidate) :
  sum_ones p l = Z.of_nat (List.length (List.filter p l)).
Proof.
  induction l as [|c l IH]; [done|]. cbn [sum_ones foldr List.filter].
  fold (sum_ones p l). rewrite IH. destruct (p c); cbn [List.length]; lia.
Qed.

Lemma sum_ones_bounds (p : Candidate -> bool) (l : list Candidate) :
  0 <= sum_ones p l <= Z.of_nat (List.length l).
Proof.
  induction l as [|c l IH]; [done|]. cbn [sum_ones foldr List.length].
  fold (sum_ones p l). destruct (p c); lia.
Qed.

Lemma sum_ones_negb (p : Candidate -> bool) (l : list Candidate) :
  sum_ones p l + sum_ones (fun c => negb (p c)) l = Z.of_nat (List.length l).
Proof.
  induction l as [|c l IH]; [done|]. cbn [sum_ones foldr List.length].
  fold (sum_ones p l) (sum_ones (fun c => negb (p c)) l).
  destruct (p c); cbn; lia.
Qed.

Lemma sum_ones_app (p : Candidate -> bool) (l1 l2 : list Candidate) :
  sum_ones p (l1 ++ l2) = sum_ones p l1 + sum_ones p l2.
Proof.
  induction l1 as [|c l1 IH]; [done|]. cbn [app sum_ones foldr].
  fold (sum_ones p (l1 ++ l2)) (sum_ones p l1). rewrite IH. destruct (p c); lia.
Qed.

(** The statistics request returns, whatever the table holds, and changes
    nothing.  Each of its counts lies between zero and [total]; [viewed]
    and [unviewed] add up to [total], and [unviewed], computed as
    [total - viewed], is the number of rows that are not viewed; a
    candidate counts as having notes when its notes are a non-empty
    string. *)
Theorem get_stats_counts (w : World) :
  exists s,
    get_stats w = (Returns (mkResponse true "Stats retrieved" s), w) /\
    stats_total s = Z.of_nat (List.length (rows w)) /\
    0 <= stats_viewed s <= stats_total s /\
    0 <= unviewed s <= stats_total s /\
    0 <= stats_starred s <= stats_total s /\
    0 <= with_notes s <= stats_total s /\
    stats_viewed s + unviewed s = stats_total s /\
    unviewed s = Z.of_nat (List.length (List.filter (fun c => negb (viewed c)) (rows w))) /\
    with_notes s
    = Z.of_nat (List.length (List.filter (fun c => py_bool (notes c)) (rows w))) /\
    forall c, py_bool (notes c) = true <-> exists n, notes c = Some n /\ n <> "".
Proof.
  exists (stats (rows w)). split; [reflexivity|]. unfold stats. cbn.
  pose proof (sum_ones_bounds viewed (rows w)).
  pose proof (sum_ones_bounds starred (rows w)).
  pose proof (sum_ones_bounds (fun c => py_bool (notes c)) (rows w)).
  pose proof (sum_ones_negb viewed (rows w)) as Hneg.
  do 6 (split; [lia|]).
  split; [rewrite <- (sum_ones_length (fun c => negb (viewed c))); lia|].
  split; [apply (sum_ones_length (fun c => py_bool (notes c)))|].
  intros c. destruct (notes c) as [[|x n]|]; cbn.
  - split; [done|]. by intros (n & [= <-] & Hn).
  - split; [|done]. intros _. by eexists.
  - split; [done|]. by intros (n & Hn & _).
Qed.

(** The first retrieval moves one candidate from unviewed to viewed.  On
    a table in which no two rows have the same id, retrieving a stored
    candidate that is not viewed raises the [viewed] count of the
    statistics by one and lowers [unviewed] by one; [total], [starred]
    and [with_notes] are as before. *)
Theorem first_retrieval_counts_once (w : World) (cid : Z) (c : Candidate) :
  NoDup (id <$> rows w) ->
  find (has_id cid) (rows w) = Some c ->
  viewed c = false ->
  exists r w' s s',
    get_candidate cid w = (Returns r, w') /\
    get_stats w = (Returns (mkResponse true "Stats retrieved" s), w) /\
    get_stats w' = (Returns (mkResponse true "Stats retrieved" s'), w') /\
    stats_viewed s' = stats_viewed s + 1 /\
    unviewed s' = unviewed s - 1 /\
    stats_total s' = stats_total s /\
    stats_starred s' = stats_starred s /\
    with_notes s' = with_notes s.
Proof.
  intros Hdup Hfind Hviewed.
  set (c' := set_updated_at (wall_clock w (S (ticks w)))
               (set_viewed_at (Some (wall_clock w (ticks w))) (set_viewed true c))).
  destruct (save_unique cid c c' (rows w) Hdup Hfind) as (before & after & Hrows & Hsaved).
  eexists _, _, (stats (rows w)), _. split.
  { run_handler. rewrite Hfind, Hviewed. cbn. reflexivity. }
  split; [reflexivity|]. split; [reflexivity|].
  cbn [rows with_rows with_ticks]. fold c'. rewrite Hsaved, Hrows.
  unfold stats. cbn [stats_viewed unviewed stats_total stats_starred with_notes].
  rewrite !length_app, !sum_ones_app. cbn [List.length sum_ones foldr].
  change (viewed c') with true. change (starred c') with (starred c).
  change (notes c') with (notes c). rewrite Hviewed.
  repeat split; lia.
Qed.

Lemma first_retrieval_counts_once_witness :
  exists r w' s s',
    get_candidate 1 sample_world = (Returns r, w') /\
    get_stats sample_world = (Returns (mkResponse true "Stats retrieved" s), sample_world) /\
    get_stats w' = (Returns (mkResponse true "Stats retrieved" s'), w') /\
    stats_viewed s = 0 /\ unviewed s = 1 /\ stats_viewed s' = 1 /\ unviewed s' = 0.
Proof.
  assert (Hdup : NoDup (id <$> rows sample_world)) by (cbn; apply NoDup_singleton).
  destruct (first_retrieval_counts_once sample_world 1 sample_candidate Hdup eq_refl eq_refl)
    as (r & w' & s & s' & Hget & Hs & Hs' & Hviewed & Hunviewed & _).
  injection Hs as Hs. subst s.
  exists r, w', (stats (rows sample_world)), s'.
  split; [exact Hget|]. split; [reflexivity|]. split; [exact Hs'|].
  split; [reflexivity|]. split; [reflexivity|].
  split; [rewrite Hviewed|rewrite Hunviewed]; reflexivity.
Defined.
(** ** The list of candidates *)

(** The list request, for a store query that returns the rows of the
    table in some order, sorted by [full_name] under the collation of
    the column.  The request returns and changes nothing (it marks no
    candidate as viewed); its message gives the number of rows of the
    table; the summaries are those of the rows, one for each row, in the
    order of the query, so sorted by name. *)
Theorem get_candidates_lists_every_row
    (order_by_full_name : list Candidate -> list Candidate)
    (collation : relation string) (w : World) :
  (forall table, order_by_full_name table ≡ₚ table) ->
  (forall table,
     StronglySorted (fun a b => collation (full_name a) (full_name b))
       (order_by_full_name table)) ->
  exists summary,
    get_candidates order_by_full_name w
    = (Returns (mkResponse true
                  ("Retrieved " +:+ pretty (List.length (rows w)) +:+ " candidates")
                  summary), w) /\
    summary ≡ₚ summary_of <$> rows w /\
    StronglySorted (fun a b => collation (sum_full_name a) (sum_full_name b)) summary.
Proof.
  intros Hperm Hsorted. exists (map summary_of (order_by_full_name (rows w))).
  split; [|split].
  - unfold get_candidates, gets, mbind, M_bind, mret, M_ret. cbn.
    by rewrite length_map, (Permutation_length (Hperm (rows w))).
  - change (map summary_of (order_by_full_name (rows w)))
      with (summary_of <$> order_by_full_name (rows w)).
    by rewrite (Hperm (rows w)).
  - apply (StronglySorted_fmap summary_of
             (fun a b => collation (full_name a) (full_name b))); [done|].
    apply Hsorted.
Qed.

Lemma get_candidates_lists_every_row_witness :
  exists summary,
    get_candidates (merge_sort (fun a b => String.le (full_name a) (full_name b)))
      sample_world
    = (Returns (mkResponse true "Retrieved 1 candidates" summary), sample_world) /\
    summary ≡ₚ summary_of <$> rows sample_world.
Proof.
  destruct (get_candidates_lists_every_row
              (merge_sort (fun a b => String.le (full_name a) (full_name b)))
              String.le sample_world)
    as (summary & Hrun & Hperm & _).
  - intros table. apply merge_sort_Permutation.
  - intros table. apply StronglySorted_merge_sort.
    + intros a b c. apply transitivity.
    + intros a b. apply total, _.
  - exists summary. split; [exact Hrun|exact Hperm].
Defined.

(** ** Search patterns *)

Ltac each_char c :=
  destruct c as [[] [] [] [] [] [] [] []].

Lemma special_is_escaped (c : ascii) :
  re.is_special c = true ->
  bool_decide (c = "b"%char) = false /\ PyStr.is_alnum c = false.
Proof. each_char c; vm_compute; intros H; done. Qed.

Lemma plain_is_literal (c : ascii) :
  re.is_special c = false ->
  bool_decide (c = re.backslash) = false /\ re.is_operator c = false.
Proof. each_char c; vm_compute; intros H; done. Qed.

Lemma parse_escape (q rest : string) (ops : list re.op) :
  re.parse rest = Returns ops ->
  re.parse (re.escape q +:+ rest) = Returns (literals q ++ ops).
Proof.
  intros Hrest. induction q as [|c q IH]; [done|].
  cbn [re.escape literals]. destruct (re.is_special c) eqn:Hc.
  - destruct (special_is_escaped c Hc) as [Hb Halnum].
    rewrite !app_cons. cbn [re.parse].
    rewrite bool_decide_eq_true_2 by done. rewrite Hb, Halnum, IH. done.
  - destruct (plain_is_literal c Hc) as [Hbs Hop].
    rewrite app_cons. cbn [re.parse]. rewrite Hbs, Hop, IH. done.
Qed.

Lemma word_pattern_compiles (q : string) :
  re.compile ("\b" +:+ re.escape q +:+ "\b") true
  = Returns (re.mkPattern (re.AT_BOUNDARY :: literals q ++ [re.AT_BOUNDARY]) true).
Proof.
  unfold re.compile.
  change ("\b" +:+ re.escape q +:+ "\b")
    with (String re.backslash (String "b" (re.escape q +:+ "\b"))).
  cbn [re.parse]. rewrite !bool_decide_eq_true_2 by done.
  by rewrite (parse_escape q "\b" [re.AT_BOUNDARY]).
Qed.

(** ** The matcher *)









(** ** Whole-word search *)




Lemma filter_sublist {A} (p : A -> bool) (l : list A) : sublist (List.filter p l) l.
Proof.
  induction l as [|x l IH]; [constructor|]. cbn [List.filter].
  destruct (p x); by constructor.
Qed.


(** No query is a pattern.  Whatever the characters of the query,
    [re.escape] makes each of them a literal: the pattern the search
    compiles is the query's characters between two word boundaries, and
    compiling it does not fail. *)
Theorem every_query_compiles_to_its_literals (q : string) :
  re.parse (re.escape q) = Returns (literals q) /\
  re.compile ("\b" +:+ re.escape q +:+ "\b") true
  = Returns (re.mkPattern (re.AT_BOUNDARY :: literals q ++ [re.AT_BOUNDARY]) true).
Proof.
  split; [|apply word_pattern_compiles].
  pose proof (parse_escape q "" [] eq_refl) as H.
  by rewrite app_empty_r, app_nil_r in H.
Qed.



(** ** Queries that end in punctuation *)




Lemma last_char_cons (x : ascii) (s : string) :
  PyStr.last_char (String x s)
  = match PyStr.last_char s with
    | Some y => Some y
    | None => Some x
    end.
Proof. unfold PyStr.last_char. cbn [list_ascii_of_string]. apply last_cons. Qed.

Lemma last_char_None (s : string) : PyStr.last_char s = None -> s = "".
Proof.
  destruct s as [|x s]; [done|]. rewrite last_char_cons.
  by destruct (PyStr.last_char s).
Qed.




(** ** The URL filter on arbitrary values *)

Lemma py_in_container (needle : string) (v : json) :
  is_container v = true -> exists b, py_in needle v = Returns b.
Proof. destruct v; try done; intros _; by eexists. Qed.

Lemma py_in_not_container (needle : string) (v : json) :
  is_container v = false -> py_in needle v = Raises TypeError.
Proof. by destruct v. Qed.

Lemma filter_urls_from_outcome (items : list json) :
  (forallb is_container items = true ->
   filter_urls_from items
   = Returns (List.filter without_arxiv items))
  /\ (forallb is_container items = false -> filter_urls_from items = Raises TypeError).
Proof.
  induction items as [|u items [IHok IHbad]]; [done|].
  cbn [forallb filter_urls_from List.filter]. split.
  - intros [Hu Hitems]%andb_true_iff. rewrite (IHok Hitems).
    unfold without_arxiv.
    destruct (py_in_container "arxiv.org" u Hu) as [[|] ->]; cbn; done.
  - intros Hbad. destruct (is_container u) eqn:Hu.
    + cbn in Hbad. rewrite (IHbad Hbad).
      by destruct (py_in_container "arxiv.org" u Hu) as [b ->].
    + by rewrite (py_in_not_container _ _ Hu).
Qed.

Lemma filter_filter_same {A} (p : A -> bool) (l : list A) :
  List.filter p (List.filter p l) = List.filter p l.
Proof.
  induction l as [|x l IH]; [done|]. cbn [List.filter].
  destruct (p x) eqn:Hx; [|done]. cbn [List.filter]. by rewrite Hx, IH.
Qed.

Lemma forallb_filter {A} (p ok : A -> bool) (l : list A) :
  forallb ok l = true -> forallb ok (List.filter p l) = true.
Proof.
  induction l as [|x l IH]; [done|]. cbn [forallb List.filter].
  intros [Hx Hl]%andb_true_iff. destruct (p x); cbn [forallb]; rewrite ?Hx; by apply IH.
Qed.

(** Filtering is idempotent.  Whatever list [filter_urls] returns, on
    any list of values, it is a sublist of the input in the same order,
    and filtering it again returns it unchanged. *)
Theorem filter_urls_idempotent (items kept : list json) :
  filter_urls (JArr items) = Returns kept ->
  sublist kept items /\ filter_urls (JArr kept) = Returns kept.
Proof.
  unfold filter_urls. cbn [py_iter mbind outcome_bind]. intros Hrun.
  destruct (filter_urls_from_outcome items) as [Hok Hbad].
  destruct (forallb is_container items) eqn:Hitems.
  - rewrite (Hok eq_refl) in Hrun. injection Hrun as <-.
    split; [apply filter_sublist|].
    destruct (filter_urls_from_outcome
                (List.filter without_arxiv
                   items)) as [Hok' _].
    rewrite Hok' by (by apply forallb_filter). by rewrite filter_filter_same.
  - by rewrite (Hbad eq_refl) in Hrun.
Qed.

Lemma filter_urls_idempotent_witness :
  filter_urls (JArr [JStr "https://github.com/test"; JStr "https://arxiv.org/abs/1234"])
  = Returns [JStr "https://github.com/test"] /\
  filter_urls (JArr [JStr "https://github.com/test"]) = Returns [JStr "https://github.com/test"].
Proof.
  split; [reflexivity|].
  apply (filter_urls_idempotent
           [JStr "https://github.com/test"; JStr "https://arxiv.org/abs/1234"]).
  reflexivity.
Defined.

Lemma chars_kept (s : string) :
  filter_urls_from (JStr <$> PyStr.chars s) = Returns (JStr <$> PyStr.chars s).
Proof.
  induction s as [|c s IH]; [done|].
  cbn [PyStr.chars fmap list_fmap filter_urls_from py_in].
  fold (JStr <$> PyStr.chars s). rewrite IH. cbn [mbind outcome_bind].
  assert (Hc : PyStr.contains "arxiv.org" (String c "") = false).
  { cbn. by rewrite andb_false_r. }
  by rewrite Hc.
Qed.

(** The URL filter on values that are not lists of strings.  On a list,
    [filter_urls] raises a [TypeError] exactly when one of the items is
    null, a boolean or a number, and returns a list otherwise; on null,
    a boolean or a number it raises a [TypeError]; on a string it returns
    the characters of the string, all of them, whether or not the string
    contains ["arxiv.org"]. *)
Theorem filter_urls_on_other_values (items : list json) (s : string) :
  (filter_urls (JArr items) = Raises TypeError <->
   exists v, v ∈ items /\ is_container v = false) /\
  ((forall v, v ∈ items -> is_container v = true) ->
   exists kept, filter_urls (JArr items) = Returns kept) /\
  filter_urls JNull = Raises TypeError /\
  (forall b, filter_urls (JBool b) = Raises TypeError) /\
  (forall n, filter_urls (JNum n) = Raises TypeError) /\
  filter_urls (JStr s) = Returns (JStr <$> PyStr.chars s).
Proof.
  destruct (filter_urls_from_outcome items) as [Hok Hbad].
  assert (Hall : forallb is_container items = true <->
                 forall v, v ∈ items -> is_container v = true).
  { rewrite forallb_forall. split; intros H v Hv; apply H; by apply list_elem_of_In. }
  unfold filter_urls. cbn [py_iter mbind outcome_bind].
  split; [|split; [|split; [done|split; [done|split; [done|]]]]].
  - destruct (forallb is_container items) eqn:Hitems.
    + rewrite (Hok eq_refl). split; [done|].
      intros (v & Hv & Hbadv). apply Hall in Hv; [congruence|done].
    + rewrite (Hbad eq_refl). split; [intros _|done].
      clear -Hitems. induction items as [|u items IH]; [done|].
      cbn [forallb] in Hitems. destruct (is_container u) eqn:Hu.
      * destruct (IH Hitems) as (v & Hv & Hbadv). exists v. split; [by right|done].
      * exists u. split; [by left|done].
  - intros Hitems%Hall. rewrite (Hok Hitems). by eexists.
  - apply (chars_kept s).
Qed.

(** ** Stripping *)

Lemma rstrip_fix (s : string) :
  not_space_at (PyStr.last_char s) = true -> PyStr.rstrip s = s.
Proof.
  induction s as [|c s IH]; [done|]. rewrite last_char_cons. cbn [PyStr.rstrip].
  destruct (PyStr.last_char s) as [y|] eqn:Hlast.
  - intros Hy. rewrite (IH Hy). destruct s; [done|done].
  - apply last_char_None in Hlast. subst s. cbn. intros Hc.
    by destruct (PyStr.is_space c).
Qed.

Lemma rstrip_last (s : string) : not_space_at (PyStr.last_char (PyStr.rstrip s)) = true.
Proof.
  induction s as [|c s IH]; [done|]. cbn [PyStr.rstrip].
  destruct (PyStr.rstrip s) as [|y r] eqn:Hr.
  - destruct (PyStr.is_space c) eqn:Hc; [done|]. cbn. by rewrite Hc.
  - rewrite last_char_cons.
    destruct (PyStr.last_char (String y r)) eqn:Hlast; [done|].
    by apply last_char_None in Hlast.
Qed.

Lemma lstrip_first (s : string) : not_space_at (PyStr.first_char (PyStr.lstrip s)) = true.
Proof.
  induction s as [|c s IH]; [done|]. cbn [PyStr.lstrip].
  destruct (PyStr.is_space c) eqn:Hc; [done|]. cbn. by rewrite Hc.
Qed.

Lemma lstrip_fix (s : string) :
  not_space_at (PyStr.first_char s) = true -> PyStr.lstrip s = s.
Proof.
  destruct s as [|c s]; [done|]. cbn. by destruct (PyStr.is_space c).
Qed.

Lemma lstrip_last (s : string) :
  PyStr.lstrip s <> "" -> PyStr.last_char (PyStr.lstrip s) = PyStr.last_char s.
Proof.
  induction s as [|c s IH]; [done|]. cbn [PyStr.lstrip].
  destruct (PyStr.is_space c); [|done]. intros Hne. rewrite (IH Hne), last_char_cons.
  destruct (PyStr.last_char s) eqn:Hlast; [done|].
  apply last_char_None in Hlast. by subst s.
Qed.

Lemma strip_ends (s : string) :
  not_space_at (PyStr.first_char (PyStr.strip s)) = true /\
  not_space_at (PyStr.last_char (PyStr.strip s)) = true.
Proof.
  unfold PyStr.strip. split; [apply lstrip_first|].
  destruct (PyStr.lstrip (PyStr.rstrip s)) as [|c t] eqn:Ht; [done|].
  rewrite <- Ht, lstrip_last by (by rewrite Ht). apply rstrip_last.
Qed.

Lemma strip_fix (s : string) :
  not_space_at (PyStr.first_char s) = true ->
  not_space_at (PyStr.last_char s) = true ->
  PyStr.strip s = s.
Proof.
  intros Hfirst Hlast. unfold PyStr.strip. by rewrite (rstrip_fix s Hlast), lstrip_fix.
Qed.

Lemma strip_strip (s : string) : PyStr.strip (PyStr.strip s) = PyStr.strip s.
Proof. destruct (strip_ends s). by apply strip_fix. Qed.

Lemma occurs_lstrip (c : ascii) (s : string) :
  occurs c s = false -> occurs c (PyStr.lstrip s) = false.
Proof.
  induction s as [|x s IH]; [done|]. cbn [PyStr.lstrip occurs].
  intros [Hx Hs]%orb_false_iff. destruct (PyStr.is_space x); [by apply IH|].
  cbn [occurs]. by rewrite Hx, Hs.
Qed.

Lemma occurs_rstrip (c : ascii) (s : string) :
  occurs c s = false -> occurs c (PyStr.rstrip s) = false.
Proof.
  induction s as [|x s IH]; [done|]. cbn [PyStr.rstrip occurs].
  intros [Hx Hs]%orb_false_iff. specialize (IH Hs).
  destruct (PyStr.rstrip s) as [|y r].
  - destruct (PyStr.is_space x); [done|]. cbn. by rewrite Hx.
  - cbn [occurs] in *. by rewrite Hx, IH.
Qed.

Lemma occurs_strip (c : ascii) (s : string) :
  occurs c s = false -> occurs c (PyStr.strip s) = false.
Proof. intros H. by apply occurs_lstrip, occurs_rstrip. Qed.

(** ** Splitting and joining *)

Lemma split_pieces (sep : ascii) (s : string) :
  PyStr.split sep s <> [] /\ Forall (fun p => occurs sep p = false) (PyStr.split sep s).
Proof.
  induction s as [|c s [IHne IH]]; [split; [done|by repeat constructor]|].
  cbn [PyStr.split]. destruct (decide (c = sep)) as [->|Hc].
  - split; [done|]. by constructor.
  - destruct (PyStr.split sep s) as [|cur rest]; [done|]. split; [done|].
    apply Forall_cons in IH as [Hcur Hrest]. constructor; [|done].
    cbn [occurs]. by rewrite bool_decide_eq_false_2, Hcur.
Qed.

Lemma split_one (sep : ascii) (p : string) :
  occurs sep p = false -> PyStr.split sep p = [p].
Proof.
  induction p as [|c p IH]; [done|]. cbn [occurs PyStr.split].
  intros [Hc Hp]%orb_false_iff. apply bool_decide_eq_false in Hc.
  rewrite decide_False by done. by rewrite (IH Hp).
Qed.

Lemma split_app_sep (sep : ascii) (p t : string) :
  occurs sep p = false ->
  PyStr.split sep (p +:+ String sep t) = p :: PyStr.split sep t.
Proof.
  induction p as [|c p IH]; intros Hp.
  - rewrite app_empty_l. cbn [PyStr.split]. by rewrite decide_True.
  - cbn [occurs] in Hp. apply orb_false_iff in Hp as [Hc Hp].
    apply bool_decide_eq_false in Hc.
    rewrite app_cons. cbn [PyStr.split]. rewrite decide_False by done.
    by rewrite (IH Hp).
Qed.

Lemma split_join (sep : ascii) (lines : list string) :
  lines <> [] ->
  Forall (fun p => occurs sep p = false) lines ->
  PyStr.split sep (PyStr.join (String sep "") lines) = lines.
Proof.
  induction lines as [|p lines IH]; [done|]. intros _ [Hp Hlines]%Forall_cons.
  destruct lines as [|p' lines].
  - cbn [PyStr.join]. by apply split_one.
  - change (PyStr.join (String sep "") (p :: p' :: lines))
      with (p +:+ String sep "" +:+ PyStr.join (String sep "") (p' :: lines)).
    rewrite app_cons, app_empty_l, split_app_sep by done.
    by rewrite IH.
Qed.

(** ** Cleaned text *)

Lemma kept_lines_clean (text_parts : list string) :
  Forall clean_line (kept_lines text_parts).
Proof.
  unfold kept_lines. apply Forall_forall. intros line Hin.
  apply list_elem_of_In, filter_In in Hin as [Hin Hne].
  apply in_map_iff in Hin as (piece & <- & Hpiece).
  destruct (split_pieces LF (PyStr.join (String LF (String LF "")) text_parts))
    as [_ Hpieces].
  rewrite Forall_forall in Hpieces. apply list_elem_of_In in Hpiece.
  destruct (strip_ends piece) as [Hfirst Hlast].
  split.
  { intros Hempty. unfold nonempty in Hne. by rewrite Hempty in Hne. }
  split; [by apply occurs_strip, Hpieces|].
  split; [done|]. split; [done|]. apply strip_strip.
Qed.

Lemma clean_text_split (text_parts : list string) :
  clean_text text_parts = PyStr.join (String LF "") (kept_lines text_parts) /\
  (kept_lines text_parts = [] -> clean_text text_parts = "") /\
  (kept_lines text_parts <> [] ->
   PyStr.split LF (clean_text text_parts) = kept_lines text_parts).
Proof.
  split; [reflexivity|]. split.
  - unfold clean_text. fold nonempty. fold (kept_lines text_parts). by intros ->.
  - intros Hne. unfold clean_text. fold nonempty. fold (kept_lines text_parts).
    apply split_join; [done|].
    eapply Forall_impl; [apply kept_lines_clean|]. intros line Hline. apply Hline.
Qed.

Lemma clean_lines_fixed (lines : list string) :
  Forall clean_line lines ->
  List.filter nonempty (map PyStr.strip lines) = lines.
Proof.
  induction 1 as [|line lines (Hne & _ & _ & _ & Hstrip) _ IH]; [done|].
  cbn [map List.filter]. rewrite Hstrip, IH.
  destruct line; [done|done].
Qed.


(** Cleaning is idempotent: cleaning a text that [clean_text] produced
    returns it unchanged. *)
Theorem clean_text_idempotent (text_parts : list string) :
  clean_text [clean_text text_parts] = clean_text text_parts.
Proof.
  destruct (clean_text_split text_parts) as (Hjoin & Hnil & Hsplit).
  destruct (kept_lines text_parts) as [|line lines] eqn:Hkept.
  - by rewrite (Hnil eq_refl).
  - assert (Hne : line :: lines <> []) by done.
    specialize (Hsplit Hne).
    pose proof (kept_lines_clean text_parts) as Hclean. rewrite Hkept in Hclean.
    unfold clean_text at 1. cbn [PyStr.join]. fold nonempty.
    by rewrite Hsplit, (clean_lines_fixed _ Hclean).
Qed.

(** ** Invariants of the review requests *)

Lemma find_elem (cid : Z) (c : Candidate) (table : list Candidate) :
  find (has_id cid) table = Some c -> c ∈ table.
Proof. intros [Hin _]%find_some. by apply list_elem_of_In. Qed.

Lemma Forall_saved (P : Candidate -> Prop) (c c' : Candidate) (table : list Candidate) :
  Forall P table -> P c' ->
  Forall P (map (fun r => if bool_decide (id r = id c) then c' else r) table).
Proof.
  intros Htable Hc'. induction Htable as [|r table Hr _ IH]; [constructor|].
  cbn [map]. constructor; [|exact IH]. by destruct (bool_decide (id r = id c)).
Qed.

Lemma run_op_viewed_has_time (op : api_op) (w : World) :
  Forall viewed_has_time (rows w) -> Forall viewed_has_time (rows (run_op op w).2).
Proof.
  intros Hrows. destruct op as [cid|cid update]; cbn [run_op].
  - run_handler. destruct (find (has_id cid) (rows w)) as [c|] eqn:Hfind; [|done].
    destruct (viewed c); cbn; [done|].
    apply Forall_saved; [done|]. intros _. by eexists.
  - run_handler. destruct (find (has_id cid) (rows w)) as [c|] eqn:Hfind; [|done].
    assert (Hc : viewed_has_time c).
    { rewrite Forall_forall in Hrows. by apply Hrows, (find_elem cid). }
    unfold viewed_has_time in Hc.
    destruct update as [[b|] [n|] [[|]|]]; cbn;
      try destruct (viewed_at c) as [t|] eqn:Ht; cbn;
      (apply Forall_saved; [done|]); unfold viewed_has_time; cbn;
      rewrite ?Ht; try done; intros _; by eexists.
Qed.

(** A viewed candidate has a viewing time.  If every row that is marked
    as viewed has [viewed_at] set, then this is still so after any
    sequence of retrieve and update requests: no request leaves a
    candidate viewed without a viewing time. *)
Theorem viewed_candidates_keep_a_viewing_time (ops : list api_op) (w : World) :
  Forall viewed_has_time (rows w) ->
  Forall viewed_has_time (rows (run_ops ops w)).
Proof.
  revert w. induction ops as [|op ops IH]; intros w Hrows; [done|].
  cbn [run_ops]. by apply IH, run_op_viewed_has_time.
Qed.

Lemma viewed_candidates_keep_a_viewing_time_witness :
  Forall viewed_has_time (rows sample_world) /\
  Forall viewed_has_time
    (rows (run_ops [UpdateCandidate 1 (mkCandidateUpdate None None (Some true));
                    UpdateCandidate 1 (mkCandidateUpdate None None (Some false));
                    GetCandidate 1] sample_world)).
Proof.
  assert (Hrows : Forall viewed_has_time (rows sample_world)).
  { repeat constructor. intros Hviewed. discriminate Hviewed. }
  split; [exact Hrows|].
  apply (viewed_candidates_keep_a_viewing_time _ sample_world Hrows).
Defined.

Lemma stamps_ordered_later (now later : datetime) (c : Candidate) :
  now <= later -> stamps_ordered now c -> stamps_ordered later c.
Proof. intros Hle (Hcreated & Hupdated & Hviewed). repeat split; [done|lia|done]. Qed.

Lemma run_op_stamps_ordered (op : api_op) (w : World) :
  monotone (wall_clock w) ->
  Forall (stamps_ordered (wall_clock w (ticks w))) (rows w) ->
  wall_clock (run_op op w).2 = wall_clock w /\
  (ticks w <= ticks (run_op op w).2)%nat /\
  Forall (stamps_ordered (wall_clock w (ticks (run_op op w).2))) (rows (run_op op w).2).
Proof.
  intros Hclock Hrows.
  assert (Hlater : forall n, (ticks w <= n)%nat ->
            Forall (stamps_ordered (wall_clock w n)) (rows w)).
  { intros n Hn. eapply Forall_impl; [exact Hrows|]. intros c.
    apply stamps_ordered_later, Hclock, Hn. }
  pose proof (Hclock (ticks w) (S (ticks w))) as H01.
  pose proof (Hclock (S (ticks w)) (S (S (ticks w)))) as H12.
  pose proof (Hclock (ticks w) (S (S (ticks w)))) as H02.
  destruct op as [cid|cid update]; cbn [run_op].
  - run_handler. destruct (find (has_id cid) (rows w)) as [c|] eqn:Hfind;
      [|by repeat split].
    assert (Hc : stamps_ordered (wall_clock w (ticks w)) c).
    { rewrite Forall_forall in Hrows. by apply Hrows, (find_elem cid). }
    destruct Hc as (Hcreated & Hupdated & Hviewed).
    destruct (viewed c); cbn; [by repeat split|].
    split; [done|]. split; [lia|].
    apply Forall_saved; [apply Hlater; lia|].
    repeat split; cbn; [lia|lia|]. intros t [= <-]. lia.
  - run_handler. destruct (find (has_id cid) (rows w)) as [c|] eqn:Hfind;
      [|by repeat split].
    assert (Hc : stamps_ordered (wall_clock w (ticks w)) c).
    { rewrite Forall_forall in Hrows. by apply Hrows, (find_elem cid). }
    destruct Hc as (Hcreated & Hupdated & Hviewed).
    destruct update as [[b|] [n|] [[|]|]]; cbn;
      try destruct (viewed_at c) as [t|] eqn:Ht; cbn;
      (split; [done|]; split; [lia|];
       apply Forall_saved; [apply Hlater; lia|];
       repeat split; cbn; [lia|lia|];
       rewrite ?Ht; intros t' [= <-]; try specialize (Hviewed _ eq_refl); lia).
Qed.

(** The time stamps stay in order.  With a clock that does not go back,
    on a table in which the stamps of every row are in order (created,
    then viewed if ever, then updated) and not after the current
    reading, the same holds after any sequence of retrieve and update
    requests: no request makes [updated_at] earlier than [created_at] or
    than [viewed_at]. *)
Theorem review_requests_keep_stamps_ordered (ops : list api_op) (w : World) :
  monotone (wall_clock w) ->
  Forall (stamps_ordered (wall_clock w (ticks w))) (rows w) ->
  Forall (stamps_ordered (wall_clock w (ticks (run_ops ops w)))) (rows (run_ops ops w)).
Proof.
  revert w. induction ops as [|op ops IH]; intros w Hclock Hrows; [done|].
  cbn [run_ops]. destruct (run_op_stamps_ordered op w Hclock Hrows) as (Hsame & _ & Hstep).
  rewrite <- Hsame. apply IH; rewrite Hsame; done.
Qed.

Lemma review_requests_keep_stamps_ordered_witness :
  monotone (wall_clock sample_world) /\
  Forall (stamps_ordered (wall_clock sample_world (ticks sample_world))) (rows sample_world) /\
  Forall (stamps_ordered 1005)
    (rows (run_ops [GetCandidate 1;
                    UpdateCandidate 1 (mkCandidateUpdate None None (Some false));
                    GetCandidate 1] sample_world)).
Proof.
  assert (Hclock : monotone (wall_clock sample_world)).
  { intros m n Hmn. cbn. lia. }
  assert (Hrows : Forall (stamps_ordered (wall_clock sample_world (ticks sample_world)))
                    (rows sample_world)).
  { repeat constructor; cbn; [lia|lia|]. intros t Ht. discriminate Ht. }
  split; [exact Hclock|]. split; [exact Hrows|].
  apply (review_requests_keep_stamps_ordered
           [GetCandidate 1;
            UpdateCandidate 1 (mkCandidateUpdate None None (Some false));
            GetCandidate 1] sample_world Hclock Hrows).
Defined.

(** ** The rows a scan stores *)

Lemma bind_outcome {A B} (m : M A) (k : A -> M B) (w : World) :
  (m ≫= k) w
  = match m w with
    | (Returns a, w1) => k a w1
    | (Raises e, w1) => (Raises e, w1)
    | (OutOfModel, w1) => (OutOfModel, w1)
    end.
Proof. reflexivity. Qed.

Lemma below_next_id (table : list Candidate) (r : Candidate) :
  r ∈ table -> default 0 (id r) < next_id table.
Proof.
  unfold next_id. induction table as [|x table IH]; [by intros ?%elem_of_nil|].
  cbn [foldr]. intros [->|Hr]%elem_of_cons; [lia|]. specialize (IH Hr). lia.
Qed.

Lemma next_id_fresh (table : list Candidate) : Some (next_id table) ∉ id <$> table.
Proof.
  intros (r & Hid & Hr)%list_elem_of_fmap. pose proof (below_next_id table r Hr) as Hlt.
  rewrite <- Hid in Hlt. cbn in Hlt. lia.
Qed.

Lemma insert_rows_known (committed new inserted r : list Candidate) :
  insert_rows committed new inserted = Returns r ->
  known r = known inserted ++ known new.
Proof.
  revert inserted. induction new as [|c new IH]; intros inserted; cbn [insert_rows].
  - intros [= <-]. unfold known. by rewrite app_nil_r.
  - unfold insert_row.
    destruct (existsb (has_folder_name (folder_name c)) (committed ++ inserted));
      [done|]. cbn [mbind outcome_bind]. intros Hr%IH. rewrite Hr, known_app.
    unfold known. cbn. by rewrite <- app_assoc.
Qed.

Lemma insert_rows_inv (committed new inserted r : list Candidate) :
  insert_rows committed new inserted = Returns r ->
  Forall unreviewed new ->
  Forall (fun c => is_Some (id c) /\ unreviewed c) inserted ->
  (NoDup (id <$> committed) -> NoDup (id <$> (committed ++ inserted))) ->
  Forall (fun c => is_Some (id c) /\ unreviewed c) r /\
  (NoDup (id <$> committed) -> NoDup (id <$> (committed ++ r))).
Proof.
  revert inserted. induction new as [|c new IH]; intros inserted; cbn [insert_rows].
  - by intros [= <-].
  - unfold insert_row.
    destruct (existsb (has_folder_name (folder_name c)) (committed ++ inserted));
      [done|]. cbn [mbind outcome_bind].
    intros Hr [Hc Hnew]%Forall_cons Hinserted Hdup.
    apply (IH _ Hr Hnew).
    + apply Forall_app. split; [done|]. constructor; [|done]. split; [by eexists|done].
    + intros Hcommitted. rewrite app_assoc, fmap_app. cbn [fmap list_fmap].
      apply NoDup_app. split; [by apply Hdup|]. split; [|apply NoDup_singleton].
      intros i Hi ->%list_elem_of_singleton. cbn in Hi.
      by apply (next_id_fresh (committed ++ inserted)).
Qed.

Lemma session_flush_inv (w w1 : World) (o : outcome unit) :
  scan_inv w -> session_flush w = (o, w1) ->
  rows w1 = rows w /\ scan_inv w1 /\
  (o = Returns tt -> pending w1 = [] /\
                     known (rows w1 ++ flushed w1) = all_known w).
Proof.
  intros (Hflushed & Hpending & Hdup). unfold session_flush.
  destruct (insert_rows (rows w) (pending w) (flushed w)) as [f|e|] eqn:Hinsert;
    intros [= <- <-]; [|done..].
  destruct (insert_rows_inv _ _ _ _ Hinsert Hpending Hflushed Hdup) as [Hf Hdup'].
  split; [done|]. split; [by repeat split|]. intros _. split; [done|].
  cbn. unfold all_known. rewrite !known_app. by rewrite (insert_rows_known _ _ _ _ Hinsert).
Qed.

Lemma load_candidate_from_folder_session (name : string) (f : folder) (w w' : World)
    (o : outcome Candidate) :
  load_candidate_from_folder name f w = (o, w') ->
  same_session w w' /\
  forall c, o = Returns c -> folder_name c = name /\ unreviewed c.
Proof.
  intros Hload. split.
  - pose proof (load_candidate_from_folder_preserved same_session name f w) as H.
    by rewrite Hload in H.
  - intros c ->. apply load_candidate_from_folder_inv in Hload
      as (? & ? & ? & ? & ? & ? & _ & _ & _ & _ & _ & _ & _ & _ & Hname & _ & Hrest).
    done.
Qed.

Lemma scan_folders_inv (entries : list (string * dir_entry)) (l s : nat)
    (w w' : World) (o : outcome (nat * nat)) :
  scan_inv w -> scan_folders entries l s w = (o, w') ->
  rows w' = rows w /\ scan_inv w'.
Proof.
  revert l s w. induction entries as [|[name [|f]] entries IH]; intros l s w Hinv;
    cbn [scan_folders].
  - by intros [= <- <-].
  - apply IH, Hinv.
  - unfold select_first_by_folder_name. rewrite !bind_outcome.
    destruct (session_flush w) as [o1 w1] eqn:Hflush.
    destruct (session_flush_inv w w1 o1 Hinv Hflush) as (Hrows1 & Hinv1 & _).
    destruct o1 as [[]|e|]; [|by intros [= <- <-]..].
    unfold gets at 1.
    destruct (find (has_folder_name name) (rows w1 ++ flushed w1)) as [c|].
    + intros Hrest. destruct (IH _ _ _ Hinv1 Hrest) as [Hrows Hinv']. by rewrite Hrows.
    + rewrite bind_outcome.
      destruct (load_candidate_from_folder name f w1) as [o2 w2] eqn:Hload.
      destruct (load_candidate_from_folder_session _ _ _ _ _ Hload)
        as ((Hrows2 & Hflushed2 & Hpending2) & Hc).
      assert (Hinv2 : scan_inv w2).
      { destruct Hinv1 as (? & ? & ?). unfold scan_inv.
        by rewrite Hrows2, Hflushed2, Hpending2. }
      destruct o2 as [c|e|]; [|intros [= <- <-]; split; [congruence|done]..].
      destruct (Hc c eq_refl) as [_ Hunreviewed].
      unfold session_add. rewrite bind_outcome. unfold modify at 1.
      intros Hrest. apply IH in Hrest as [Hrows Hinv'].
      * split; [|done]. rewrite Hrows. cbn. congruence.
      * destruct Hinv2 as (Hf & Hp & Hd). split; [done|]. split; [|done].
        cbn. apply Forall_app. split; [done|]. by constructor.
Qed.

(** The rows a scan adds.  When a scan from a fresh session returns, the
    rows it has added to the table each have an id and the review fields
    at their defaults: not starred, no notes, not viewed, no viewing
    time.  If no two rows of the table had the same id, this is still so
    with the new rows. *)
Theorem scanned_candidates_are_unreviewed (applicants_path : option string)
    (w w' : World) :
  pending w = [] -> flushed w = [] ->
  load_candidates_from_disk applicants_path w = (Returns tt, w') ->
  exists added,
    rows w' = rows w ++ added /\
    Forall (fun c => is_Some (id c) /\ unreviewed c) added /\
    (NoDup (id <$> rows w) -> NoDup (id <$> rows w')).
Proof.
  intros Hpending Hflushed.
  assert (Hinv : scan_inv w).
  { unfold scan_inv. rewrite Hpending, Hflushed, app_nil_r. by repeat split. }
  unfold load_candidates_from_disk.
  set (path := default (_applicants_path w) applicants_path).
  assert (Hfirst : forall k : string -> M unit,
            (match applicants_path with
             | Some p => mret p
             | None => get_applicants_path
             end ≫= k) w = k path w)
    by (intros k; by destruct applicants_path).
  rewrite Hfirst. unfold gets at 1.
  rewrite (bind_step _ _ _ (disk w path) w) by reflexivity.
  destruct (disk w path) as [| |entries].
  - intros [= <-]. exists []. cbn. by rewrite app_nil_r.
  - done.
  - rewrite bind_outcome.
    destruct (scan_folders (sorted_iterdir entries) 0 0 w) as [o1 w1] eqn:Hscan.
    destruct (scan_folders_inv _ _ _ _ _ _ Hinv Hscan) as [Hrows1 Hinv1].
    destruct o1 as [counts|e|]; [|done..].
    unfold session_commit. rewrite !bind_outcome.
    destruct (session_flush w1) as [o2 w2] eqn:Hflush.
    destruct (session_flush_inv _ _ _ Hinv1 Hflush) as (Hrows2 & (Hf & _ & Hdup) & _).
    destruct o2 as [[]|e|]; [|done..].
    unfold modify at 1, print, modify. intros [= <-]. cbn.
    exists (flushed w2). rewrite Hrows2, Hrows1 in *. done.
Qed.

Lemma scanned_candidates_are_unreviewed_witness :
  exists w' added,
    load_candidates_from_disk None test_world = (Returns tt, w') /\
    rows w' = rows test_world ++ added /\
    Forall (fun c => is_Some (id c) /\ unreviewed c) added /\
    NoDup (id <$> rows w').
Proof.
  destruct (load_candidates_from_disk None test_world) as [o w'] eqn:Hrun.
  assert (Ho : o = Returns tt).
  { apply (f_equal fst) in Hrun. vm_compute in Hrun. congruence. }
  subst o.
  destruct (scanned_candidates_are_unreviewed None test_world w' eq_refl eq_refl Hrun)
    as (added & Hrows & Hadded & Hdup).
  exists w', added. split; [reflexivity|]. split; [exact Hrows|].
  split; [exact Hadded|]. apply Hdup. apply NoDup_nil_2.
Defined.

(** ** A folder the loader fails on *)

Lemma session_flush_known (w w1 : World) :
  session_flush w = (Returns tt, w1) ->
  pending w1 = [] /\ all_known w1 = all_known w /\
  known (rows w1 ++ flushed w1) = all_known w.
Proof.
  unfold session_flush.
  destruct (insert_rows (rows w) (pending w) (flushed w)) as [f|e|] eqn:Hinsert;
    intros [= <-]. cbn. unfold all_known. cbn.
  rewrite app_nil_r, !known_app, (insert_rows_known _ _ _ _ Hinsert). done.
Qed.

Lemma scan_folders_blocked (name : string) (f : folder)
    (listing : list (string * dir_entry)) :
  (forall w0 c, (load_candidate_from_folder name f w0).1 <> Returns c) ->
  forall (l s : nat) (w : World),
    NoDup listing.*1 ->
    (name, Directory f) ∈ listing ->
    name ∉ all_known w ->
    forall counts, (scan_folders listing l s w).1 <> Returns counts.
Proof.
  intros Hfail.
  induction listing as [|[n e] listing IH]; intros l s w Hdup Hin Hnew counts.
  { by apply elem_of_nil in Hin. }
  cbn in Hdup. apply NoDup_cons in Hdup as [Hn Hdup].
  assert (Hlater : (name, Directory f) ∈ listing -> n <> name).
  { intros Hl ->. apply Hn. apply list_elem_of_fmap. by exists (name, Directory f). }
  apply elem_of_cons in Hin. destruct e as [|f']; cbn [scan_folders].
  - destruct Hin as [[=]|Hin]. by apply IH.
  - unfold select_first_by_folder_name. rewrite !bind_outcome.
    destruct (session_flush w) as [o1 w1] eqn:Hflush.
    destruct o1 as [[]|e|]; [|done..].
    destruct (session_flush_known _ _ Hflush) as (Hpending1 & Hknown1 & Hseen).
    unfold gets at 1.
    pose proof (find_has_folder_name n (rows w1 ++ flushed w1)) as Hfind.
    rewrite Hseen in Hfind.
    destruct (find (has_folder_name n) (rows w1 ++ flushed w1)) as [c|].
    + destruct Hin as [[= -> _]|Hin]; [done|]. apply IH; [done..|by rewrite Hknown1].
    + rewrite bind_outcome.
      destruct (load_candidate_from_folder n f' w1) as [o2 w2] eqn:Hload.
      destruct (load_candidate_from_folder_session _ _ _ _ _ Hload)
        as ((Hrows2 & Hflushed2 & Hpending2) & Hc).
      destruct o2 as [c|e|]; [|done..].
      destruct Hin as [[= -> ->]|Hin].
      * specialize (Hfail w1 c). by rewrite Hload in Hfail.
      * destruct (Hc c eq_refl) as [Hcname _].
        unfold session_add. rewrite bind_outcome. unfold modify at 1.
        apply IH; [done..|].
        unfold all_known. cbn. rewrite Hrows2, Hflushed2, Hpending2, Hpending1.
        cbn [app]. rewrite app_assoc, known_app, Hseen.
        change (known [c]) with [folder_name c]. rewrite Hcname.
        apply not_elem_of_app. split; [done|].
        intros ->%list_elem_of_singleton. by apply (Hlater Hin).
Qed.

(** One bad folder blocks the import.  When the directory has a
    subdirectory the table does not hold yet and on which the folder
    loader does not return (a document that cannot be opened, a value of
    an unexpected type), the scan from a fresh session does not return
    normally, and the table is left as it was: the folders that come
    before it in the listing are not committed either. *)
Theorem failing_folder_blocks_the_import (applicants_path : option string) (w : World)
    (entries : gmap string dir_entry) (name : string) (f : folder) :
  disk w (default (_applicants_path w) applicants_path) = ApplicantsDir entries ->
  pending w = [] -> flushed w = [] ->
  entries !! name = Some (Directory f) ->
  name ∉ known (rows w) ->
  (forall w0 c, (load_candidate_from_folder name f w0).1 <> Returns c) ->
  (load_candidates_from_disk applicants_path w).1 <> Returns tt /\
  rows (load_candidates_from_disk applicants_path w).2 = rows w.
Proof.
  intros Hdisk Hpending Hflushed Hentry Hnew Hfail.
  assert (Hblocked : (load_candidates_from_disk applicants_path w).1 <> Returns tt).
  { unfold load_candidates_from_disk.
    assert (Hfirst : forall k : string -> M unit,
              (match applicants_path with
               | Some p => mret p
               | None => get_applicants_path
               end ≫= k) w
              = k (default (_applicants_path w) applicants_path) w)
      by (intros k; by destruct applicants_path).
    rewrite Hfirst. unfold gets at 1.
    rewrite (bind_step _ _ _ (disk w (default (_applicants_path w) applicants_path)) w)
      by reflexivity.
    rewrite Hdisk, bind_outcome.
    pose proof (scan_folders_blocked name f (sorted_iterdir entries) Hfail 0 0 w)
      as Hscan.
    destruct (scan_folders (sorted_iterdir entries) 0 0 w) as [[counts|e|] w1];
      [|done..].
    destruct (Hscan) with (counts := counts); [| | |done].
    - unfold sorted_iterdir. rewrite merge_sort_Permutation.
      apply NoDup_fst_map_to_list.
    - unfold sorted_iterdir. rewrite merge_sort_Permutation.
      by apply elem_of_map_to_list.
    - unfold all_known. by rewrite Hpending, Hflushed, !app_nil_r. }
  split; [exact Hblocked|].
  destruct (load_candidates_from_disk applicants_path w) as [o w'] eqn:Hrun.
  destruct (load_candidates_from_disk_rows _ _ _ _ Hrun) as (added & Hrows & Hnone).
  cbn in *. rewrite Hrows, (Hnone Hblocked). apply app_nil_r.
Qed.

Lemma failing_folder_blocks_the_import_witness :
  applicant_folders locked_entries = ["Empty-Folder"; "Locked"; "Test-Candidate"] /\
  (load_candidates_from_disk None locked_world).1 = Raises PermissionError /\
  rows (load_candidates_from_disk None locked_world).2 = rows locked_world.
Proof.
  split; [vm_compute; reflexivity|]. split; [vm_compute; reflexivity|].
  apply (failing_folder_blocks_the_import None locked_world locked_entries
           "Locked" locked_folder); try reflexivity.
  - intros Hin. by apply elem_of_nil in Hin.
  - intros w0 c. cbn. discriminate.
Defined.

(** Errors of reading the documents.  An error of opening or decoding a
    document other than the two [load_json] absorbs (the file is missing,
    the text is not JSON) leaves the folder loader as it is: the loader
    raises it, on [basic_info.json] first and on [personal_info.json]
    when the first document could be read, and the world is as before,
    the clock not read and nothing printed. *)
Theorem load_candidate_from_folder_propagates_read_errors (name : string) (f : folder)
    (w : World) (e : exn) :
  e <> FileNotFoundError -> e <> JSONDecodeError ->
  (basic_info_json f = Unreadable e ->
   load_candidate_from_folder name f w = (Raises e, w)) /\
  ((exists v, load_json (basic_info_json f) = Returns v) ->
   personal_info_json f = Unreadable e ->
   load_candidate_from_folder name f w = (Raises e, w)).
Proof.
  intros Hmissing Hdecode.
  assert (Hraise : load_json (Unreadable e) = Raises e) by (by destruct e).
  unfold load_candidate_from_folder. split.
  - intros ->. by rewrite Hraise.
  - intros [v ->] ->. by rewrite bind_lift, Hraise.
Qed.

Lemma load_candidate_from_folder_propagates_read_errors_witness :
  load_candidate_from_folder "Locked" locked_folder locked_world
  = (Raises PermissionError, locked_world).
Proof.
  refine (proj1 (load_candidate_from_folder_propagates_read_errors "Locked" locked_folder
                   locked_world PermissionError _ _) eq_refl); discriminate.
Defined.

(** ** The flatteners on entries that are not mappings *)

Lemma experience_parts_rejects (items : list json) :
  Forall (fun v => is_mapping v = false \/ is_record experience_keys v = true) items ->
  Exists (fun v => is_mapping v = false) items ->
  experience_parts items = Raises AttributeError.
Proof.
  induction 1 as [|v items Hv _ IH]; intros Hex; [by apply Exists_nil in Hex|].
  cbn [experience_parts]. destruct (is_mapping v) eqn:Hmap.
  - destruct Hv as [|Hrecord]; [done|].
    apply Exists_cons in Hex as [|Hex]; [congruence|].
    destruct v as [| | | | |members]; try done. cbn in Hrecord.
    apply andb_true_iff in Hrecord as [Htitle [Hwork _]%andb_true_iff].
    destruct (str_member members "title" "" Htitle) as (t & -> & _).
    destruct (str_member members "work" "" Hwork) as (k & -> & _).
    cbn [mbind outcome_bind as_str]. by rewrite (IH Hex).
  - by destruct v.
Qed.

Lemma education_parts_rejects (items : list json) :
  Forall (fun v => is_mapping v = false \/ is_record education_keys v = true) items ->
  Exists (fun v => is_mapping v = false) items ->
  education_parts items = Raises AttributeError.
Proof.
  induction 1 as [|v items Hv _ IH]; intros Hex; [by apply Exists_nil in Hex|].
  cbn [education_parts]. destruct (is_mapping v) eqn:Hmap.
  - destruct Hv as [|Hrecord]; [done|].
    apply Exists_cons in Hex as [|Hex]; [congruence|].
    destruct v as [| | | | |members]; try done. cbn in Hrecord.
    apply andb_true_iff in Hrecord
      as [Hdegree [Hmajor [Hschool _]%andb_true_iff]%andb_true_iff].
    destruct (str_member members "degree" "" Hdegree) as (d & -> & _).
    destruct (str_member members "major" "" Hmajor) as (m & -> & _).
    destruct (str_member members "school" "" Hschool) as (s & -> & _).
    cbn [mbind outcome_bind as_str]. by rewrite (IH Hex).
  - by destruct v.
Qed.

(** The flatteners on malformed lists.  On a list whose entries are
    records or are not mappings at all (null, a number, a string, a
    list), with at least one that is not a mapping, each flattener raises
    an [AttributeError]; on null, a boolean or a number in place of the
    list it raises a [TypeError]. *)
Theorem flatteners_reject_non_mappings (items : list json) :
  Exists (fun v => is_mapping v = false) items ->
  (Forall (fun v => is_mapping v = false \/ is_record experience_keys v = true) items ->
   flatten_experience (JArr items) = Raises AttributeError) /\
  (Forall (fun v => is_mapping v = false \/ is_record education_keys v = true) items ->
   flatten_education (JArr items) = Raises AttributeError) /\
  (forall v, is_container v = false ->
             flatten_experience v = Raises TypeError /\
             flatten_education v = Raises TypeError).
Proof.
  intros Hex. unfold flatten_experience, flatten_education. split; [|split].
  - intros Hitems. cbn [py_iter mbind outcome_bind].
    by rewrite (experience_parts_rejects items Hitems Hex).
  - intros Hitems. cbn [py_iter mbind outcome_bind].
    by rewrite (education_parts_rejects items Hitems Hex).
  - intros v Hv. by destruct v.
Qed.

Lemma flatteners_reject_non_mappings_witness :
  flatten_experience (JArr [JObj [("title", JStr "Engineer")]; JNull])
  = Raises AttributeError /\
  flatten_education (JArr [JObj [("title", JStr "Engineer")]; JNull])
  = Raises AttributeError.
Proof.
  destruct (flatteners_reject_non_mappings [JObj [("title", JStr "Engineer")]; JNull])
    as (Hexp & Hedu & _).
  - apply Exists_cons_tl, Exists_cons_hd. reflexivity.
  - split.
    + apply Hexp. constructor; [right; reflexivity|].
      constructor; [left; reflexivity|constructor].
    + apply Hedu. constructor; [right; reflexivity|].
      constructor; [left; reflexivity|constructor].
Defined.

(** ** The update path and a viewing time that is set *)

Lemma update_candidate_keeps_viewed_at_witness :
  viewed_at_of 1 (run_ops [GetCandidate 1] sample_world) = Some 1000 /\
  viewed_at_of 1
    (snd (update_candidate 1 (mkCandidateUpdate None None (Some true))
            (run_ops [GetCandidate 1] sample_world))) = Some 1000.
Proof.
  split; [reflexivity|].
  eapply (update_candidate_keeps_viewed_at (run_ops [GetCandidate 1] sample_world) 1
            (mkCandidateUpdate None None (Some true)) _ 1000); reflexivity.
Defined.
